(** * obs_decam: calibration ingestion (python/lsst/obs/decam/ingestCalibs.py)

    A shallow embedding of [DecamCalibsParseTask] and the properties of its
    metadata translators and of its destination resolver.

    Python strings are modelled by [string]; its characters are the code
    points 0..255, which covers the ASCII text of FITS header cards.
    Dictionaries ([info] records, the header [md]) are finite maps from
    keys to dynamically typed values. Exceptions are explicit results. *)

From Stdlib Require Import ZArith Ascii String List Bool Lia.
From stdpp Require Import base option strings gmap.

Set Warnings "-register-all".
#[local] Arguments String.append !_ _ / : simpl nomatch.
Local Open Scope string_scope.
Local Open Scope Z_scope.

(** ** Python strings *)

Module PyStr.

Definition code (c : ascii) : nat := nat_of_ascii c.

Definition between (lo hi n : nat) : bool :=
  (Nat.leb lo n) && (Nat.leb n hi).

(** [\d] of the [re] module on the code points below 256. *)
Definition isdigit (c : ascii) : bool := between 48 57 (code c).

(** [str.isspace] on one character, which is also [\s] of [re]:
    TAB..CR, FS..US, space, NEL and NBSP. *)
Definition isspace (c : ascii) : bool :=
  between 9 13 (code c) || between 28 32 (code c)
  || Nat.eqb (code c) 133 || Nat.eqb (code c) 160.

(** The one character that [.] of [re] refuses. *)
Definition isnewline (c : ascii) : bool := Nat.eqb (code c) 10.

Definition lower_char (c : ascii) : ascii :=
  if between 65 90 (code c)
     || (between 192 222 (code c) && negb (Nat.eqb (code c) 215))
  then ascii_of_nat (code c + 32)
  else c.

(** [s.lower()] *)
Fixpoint lower (s : string) : string :=
  match s with
  | EmptyString => EmptyString
  | String c s' => String (lower_char c) (lower s')
  end.

(** [s.lstrip()], [s.rstrip()] and [s.strip()] without arguments. *)
Fixpoint lstrip (s : string) : string :=
  match s with
  | EmptyString => EmptyString
  | String c s' => if isspace c then lstrip s' else s
  end.

Fixpoint rstrip (s : string) : string :=
  match s with
  | EmptyString => EmptyString
  | String c s' =>
      match rstrip s' with
      | EmptyString => if isspace c then EmptyString else String c EmptyString
      | r => String c r
      end
  end.

Definition strip (s : string) : string := rstrip (lstrip s).

(** [sub in s] *)
Fixpoint contains (sub s : string) : bool :=
  if String.prefix sub s then true
  else match s with
       | EmptyString => false
       | String _ s' => contains sub s'
       end.

(** [s.find(sub)], counting from [i]: the least index of an occurrence,
    [-1] when there is none. *)
Fixpoint find_from (i : Z) (sub s : string) : Z :=
  if String.prefix sub s then i
  else match s with
       | EmptyString => -1
       | String _ s' => find_from (i + 1) sub s'
       end.

Definition find (sub s : string) : Z := find_from 0 sub s.

(** [s[:c]] for [c >= 0]. *)
Definition slice_to (c : Z) (s : string) : string :=
  String.substring 0 (Z.to_nat c) s.

(** Truth value of a string, and [a or b] on strings. *)
Definition truthy (s : string) : bool :=
  match s with EmptyString => false | _ => true end.

Definition py_or (a b : string) : string := if truthy a then a else b.

Fixpoint drop (n : nat) (s : string) : string :=
  match n, s with
  | O, _ => s
  | S n', String _ s' => drop n' s'
  | S _, EmptyString => EmptyString
  end.

End PyStr.

(** ** The two regular expressions of the module *)

Module Re.
Import PyStr.

Definition isdash (c : ascii) : bool := Nat.eqb (code c) 45.

(** The shape of [\d\d\d\d-\d\d-\d\d], as a list of character tests. *)
Definition date_shape : list (ascii -> bool) :=
  [isdigit; isdigit; isdigit; isdigit; isdash;
   isdigit; isdigit; isdash; isdigit; isdigit].

(** Match a list of single-character tests at the head of [s]; the
    matched text is returned. *)
Fixpoint match_shape (p : list (ascii -> bool)) (s : string) : option string :=
  match p with
  | [] => Some EmptyString
  | t :: p' =>
      match s with
      | EmptyString => None
      | String c s' =>
          if t c then
            match match_shape p' s' with
            | Some m => Some (String c m)
            | None => None
            end
          else None
      end
  end.

(** [re.search(r'(\d\d\d\d-\d\d-\d\d)', s)]: group 1 of the leftmost
    match, [None] when nothing matches. *)
Fixpoint search_date (s : string) : option string :=
  match match_shape date_shape s with
  | Some d => Some d
  | None =>
      match s with
      | EmptyString => None
      | String _ s' => search_date s'
      end
  end.

(** The longest run of non-whitespace at the head of [s]: what a greedy
    [\S+] (or [\S*]) takes when nothing follows it in the pattern. *)
Fixpoint nonspace_run (s : string) : string :=
  match s with
  | EmptyString => EmptyString
  | String c s' => if isspace c then EmptyString else String c (nonspace_run s')
  end.

(** [field=(\S+)] anchored at the head of [s]. *)
Definition match_token (field s : string) : option string :=
  if String.prefix (field ++ "=") s then
    match nonspace_run (drop (String.length field + 1) s) with
    | EmptyString => None
    | v => Some v
    end
  else None.

(** [.*field=(\S+)] anchored at the head of [s]. The star is greedy:
    the matcher first lets [.] eat one more character (never a newline)
    and only on failure tries the token where it stands. *)
Fixpoint match_dotstar_token (field s : string) : option string :=
  match s with
  | EmptyString => match_token field s
  | String c s' =>
      match (if isnewline c then None else match_dotstar_token field s') with
      | Some v => Some v
      | None => match_token field s
      end
  end.

(** [re.search(r".*%s=(\S+)" % field, s)]: the start position moves
    right until the anchored pattern matches. The field name is pasted
    into the pattern; this model reads it literally, which is what [re]
    does for names without regular-expression metacharacters (see
    [plain_field]). *)
Fixpoint search_calib (field s : string) : option string :=
  match match_dotstar_token field s with
  | Some v => Some v
  | None =>
      match s with
      | EmptyString => None
      | String _ s' => search_calib field s'
      end
  end.

(** Characters that stand for themselves in a pattern. *)
Definition plain_char (c : ascii) : bool :=
  between 48 57 (code c) || between 65 90 (code c)
  || between 97 122 (code c) || Nat.eqb (code c) 95.

Fixpoint plain_field (s : string) : bool :=
  match s with
  | EmptyString => true
  | String c s' => plain_char c && plain_field s'
  end.

End Re.

(** ** Values, exceptions and dictionaries *)

(** The Python values that flow through the translators. *)
Inductive value : Type :=
| VNone
| VInt (z : Z)
| VStr (s : string)
| VList (l : list value).

(** The exceptions the module can raise or let through. *)
Inductive exn : Type :=
| NotFoundError (key : string)   (* [md.getScalar] on a missing key *)
| KeyError (key : string)
| IndexError
| TypeError
| AttributeError
| AssertionError (msg : string).

Inductive result (A : Type) : Type :=
| Ok (a : A)
| Raise (e : exn).
Arguments Ok {A} a.
Arguments Raise {A} e.

Definition bind {A B : Type} (r : result A) (k : A -> result B) : result B :=
  match r with
  | Ok a => k a
  | Raise e => Raise e
  end.

Notation "'try!' x := r 'in' k" := (bind r (fun x => k))
  (at level 10, x name, r at level 100, k at level 200).

(** A Python [dict] with string keys. *)
Abbreviation dict := (gmap string value).

(** [isinstance(v, collections.abc.Sequence)]: lists and tuples, and also
    [str]. *)
Definition isSequence (v : value) : bool :=
  match v with
  | VStr _ | VList _ => true
  | VNone | VInt _ => false
  end.

(** [v[0]] on a sequence; [IndexError] when it is empty. *)
Definition getitem0 (v : value) : result value :=
  match v with
  | VList (x :: _) => Ok x
  | VList [] => Raise IndexError
  | VStr (String c _) => Ok (VStr (String c EmptyString))
  | VStr EmptyString => Raise IndexError
  | VNone | VInt _ => Raise TypeError
  end.

(** [v == "unknown"] *)
Definition eq_str (v : value) (s : string) : bool :=
  match v with
  | VStr t => String.eqb t s
  | _ => false
  end.

(** ** The header source [md]

    A [PropertySet] seen through the two calls the module makes. *)
Module Md.

Definition exists_ (md : dict) (key : string) : bool :=
  match md !! key with Some _ => true | None => false end.

Definition getScalar (md : dict) (key : string) : result value :=
  match md !! key with
  | Some v => Ok v
  | None => Raise (NotFoundError key)
  end.

End Md.

(** ** DecamCalibsParseTask *)

Definition warning_date_format : string :=
  "DATE-OBS does not match format YYYY-MM-DD".

(** [_translateFromCalibId(self, field, md)] *)
Definition _translateFromCalibId (field : string) (md : dict) : result value :=
  try! data := Md.getScalar md "CALIB_ID" in
  match data with
  | VStr s =>
      match Re.search_calib field s with
      | Some v => Ok (VStr v)
      | None => Raise AttributeError      (* [None.groups()] *)
      end
  | _ => Raise TypeError                  (* [re.search] on a non-string *)
  end.

(** [translate_ccdnum(self, md)] *)
Definition translate_ccdnum (md : dict) : result value :=
  if Md.exists_ md "CCDNUM" then
    try! ccdnum := Md.getScalar md "CCDNUM" in
    if isSequence ccdnum then
      match getitem0 ccdnum with
      | Ok x => Ok x
      | Raise IndexError => Ok VNone
      | Raise e => Raise e
      end
    else Ok ccdnum
  else _translateFromCalibId "ccdnum" md.

(** [translate_date(self, md)]: the result and the warnings sent to
    [self.log]. *)
Definition translate_date (md : dict) : result value * list string :=
  if Md.exists_ md "DATE-OBS" then
    match Md.getScalar md "DATE-OBS" with
    | Ok (VStr date) =>
        match Re.search_date date with
        | Some d => (Ok (VStr d), [])
        | None => (Ok (VStr "unknown"), [warning_date_format])
        end
    | Ok _ => (Raise TypeError, [])
    | Raise e => (Raise e, [])
    end
  else if Md.exists_ md "CALIB_ID" then
    (_translateFromCalibId "calibDate" md, [])
  else (Ok (VStr "unknown"), []).

(** [getExtensionName(md)], a static method. *)
Definition getExtensionName (md : dict) : result value :=
  Md.getScalar md "EXTNAME".

Section Translator.

(** [CalibsParseTask.translate_filter], the filter normalization of the
    base class (lsst.pipe.tasks). *)
Variable base_translate_filter : dict -> result value.

(** [translate_filter(self, md)] *)
Definition translate_filter (md : dict) : result value :=
  if Md.exists_ md "FILTER" then
    try! zero :=
      (if Md.exists_ md "OBSTYPE" then
         try! obstype := Md.getScalar md "OBSTYPE" in
         match obstype with
         | VStr s => Ok (PyStr.contains "zero" (PyStr.lower (PyStr.strip s)))
         | _ => Raise AttributeError   (* no [strip] on a non-string *)
         end
       else Ok false) in
    if zero : bool then Ok (VStr "NONE") else base_translate_filter md
  else if Md.exists_ md "CALIB_ID" then
    _translateFromCalibId "filter" md
  else Ok (VStr "unknown").

(** [CalibsParseTask.getInfo]: the primary record and the extension
    records, fresh dictionaries, none of them shared. *)
Variable base_getInfo : string -> dict * list dict.

(** [item['calib_hdu'] = item['hdu']], with 1 on [KeyError]. *)
Definition set_calib_hdu (item : dict) : dict :=
  match item !! "hdu" with
  | Some h => <["calib_hdu" := h]> item
  | None => <["calib_hdu" := VInt 1]> item
  end.

(** The body of the last loop of [getInfo]. *)
Definition set_calibDate (date : string) (info : dict) : dict :=
  match info !! "calibDate" with
  | None => <["calibDate" := VStr date]> info
  | Some v => if eq_str v "unknown" then <["calibDate" := VStr date]> info else info
  end.

(** [getInfo(self, filename)]. When the base class reports no
    extension, [phuInfo] itself is appended to the list, so the returned
    primary record is that same, updated, dictionary. *)
Definition getInfo (filename : string) : dict * list dict :=
  let '(phuInfo, infoList) := base_getInfo filename in
  let shared := match infoList with [] => true | _ => false end in
  let infoList := if shared then [phuInfo] else infoList in
  let infoList := map (fun info => <["path" := VStr filename]> info) infoList in
  let found := Re.search_date filename in
  let infoList := map set_calib_hdu infoList in
  let infoList :=
    match found with
    | None => infoList
    | Some date => map (set_calibDate date) infoList
    end in
  ((if shared then hd phuInfo infoList else phuInfo), infoList).

(** [self.getCalibType(filename)], the file classifier of the base
    class. *)
Variable getCalibType : string -> string.

Definition invalid_calibType (calibType : string) : string :=
  "Invalid calibType '" ++ calibType ++ "'".

(** [seq[0]] on the candidates a template lookup returns. *)
Definition first_candidate (l : list string) : result string :=
  match l with
  | x :: _ => Ok x
  | [] => Raise IndexError
  end.

(** [getDestination(self, butler, info, filename)]: [info] after the two
    assignments, and what the call returns or raises. [butler] is
    [butler.get]. *)
Definition getDestination (butler : string -> dict -> list string)
    (info : dict) (filename : string) : dict * result string :=
  let info := <["ccdnum" := VInt 1]> info in
  let info := <["calib_hdu" := VInt 1]> info in
  let calibType := getCalibType filename in
  (info,
   try! raw :=
     (if PyStr.contains "flat" (PyStr.lower calibType) then
        first_candidate (butler "cpFlat_filename" info)
      else if PyStr.contains (PyStr.py_or "bias" "zero") (PyStr.lower calibType) then
        first_candidate (butler "cpBias_filename" info)
      else if PyStr.contains "illumcor" (PyStr.lower calibType) then
        first_candidate (butler "cpIllumcor_filename" info)
      else Raise (AssertionError (invalid_calibType calibType))) in
   let c := PyStr.find "[" raw in
   if 0 <? c then Ok (PyStr.slice_to c raw) else Ok raw).

End Translator.

(** * Specification vocabulary *)

(** No whitespace anywhere in [v]. *)
Fixpoint nospace (v : string) : bool :=
  match v with
  | EmptyString => true
  | String c v' => negb (PyStr.isspace c) && nospace v'
  end.

(** [rest] cannot extend a run of non-whitespace: it is empty or starts
    with whitespace. *)
Definition run_ends (rest : string) : Prop :=
  match rest with
  | EmptyString => True
  | String c _ => PyStr.isspace c = true
  end.

(** No line break anywhere in [s]. *)
Fixpoint single_line (s : string) : bool :=
  match s with
  | EmptyString => true
  | String c s' => negb (PyStr.isnewline c) && single_line s'
  end.

(** The packed identifier [s] holds, right after the prefix [pre], the
    token [field=v], where [v] is a complete non-empty run of
    non-whitespace: a match of [field=(\S+)] at that place. *)
Definition Token (field s pre v : string) : Prop :=
  exists rest,
    s = pre ++ field ++ "=" ++ v ++ rest
    /\ v <> "" /\ nospace v = true /\ run_ends rest.

(** [d] has the shape [DDDD-DD-DD]. *)
Definition is_date (d : string) : Prop :=
  Forall2 (fun (t : ascii -> bool) c => t c = true)
          Re.date_shape (list_ascii_of_string d).

(** [d] is the leftmost substring of [s] of the shape [DDDD-DD-DD]. *)
Definition first_date (s d : string) : Prop :=
  exists pre suf,
    s = pre ++ d ++ suf /\ is_date d
    /\ forall pre' d' suf',
         s = pre' ++ d' ++ suf' -> is_date d' ->
         (String.length pre <= String.length pre')%nat.

(** [s] has a substring of the shape [DDDD-DD-DD]. *)
Definition has_date (s : string) : Prop :=
  exists pre d suf, s = pre ++ d ++ suf /\ is_date d.

(** The records [getInfo] works on: the extension records of the base
    class, or the primary record alone when there is none. *)
Definition extension_records (base : dict * list dict) : list dict :=
  match snd base with
  | [] => [fst base]
  | l => l
  end.

(** The first two loops of [getInfo], on one record. *)
Definition stamped (filename : string) (r : dict) : dict :=
  set_calib_hdu (<["path" := VStr filename]> r).

(** ['['] occurs nowhere in [s]. *)
Definition no_bracket (s : string) : Prop :=
  forall a b, s <> a ++ "[" ++ b.

(** What [getInfo] does to one record of a file named [filename]: the
    three loops in turn. *)
Definition processed (filename : string) (r : dict) : dict :=
  match Re.search_date filename with
  | Some date => set_calibDate date (stamped filename r)
  | None => stamped filename r
  end.

(** [dest] is a prefix of [raw]. *)
Definition is_prefix (dest raw : string) : Prop :=
  exists suf, raw = dest ++ suf.

(** The template [getDestination] asks the butler for, by the kind of
    the file: the first of the three tests that succeeds decides. *)
Inductive asks (kind : string) : string -> Prop :=
| asks_flat :
    PyStr.contains "flat" (PyStr.lower kind) = true ->
    asks kind "cpFlat_filename"
| asks_bias :
    PyStr.contains "flat" (PyStr.lower kind) = false ->
    PyStr.contains "bias" (PyStr.lower kind) = true ->
    asks kind "cpBias_filename"
| asks_illumcor :
    PyStr.contains "flat" (PyStr.lower kind) = false ->
    PyStr.contains "bias" (PyStr.lower kind) = false ->
    PyStr.contains "illumcor" (PyStr.lower kind) = true ->
    asks kind "cpIllumcor_filename".

(** The record the butler is shown. *)
Definition forced (info : dict) : dict :=
  <["calib_hdu" := VInt 1]> (<["ccdnum" := VInt 1]> info).

(** ** Sample inputs *)

(** Packed identifiers as [constructCalibs] writes them. *)
Definition calib_id_example : string :=
  "filter=g ccdnum=12 calibDate=2019-01-01".

Definition calib_id_twice : string := "filter=g ccdnum=12 filter=z".

(** Two lines, one [filter] token on each. *)
Definition calib_id_two_lines : string :=
  "filter=g" ++ String "010" "filter=r".

(** Stand-ins for [CalibsParseTask.getInfo]: a file with two extensions,
    the first without a usable date, and a single-extension file. *)
Definition two_extensions (filename : string) : dict * list dict :=
  ({[ "filter" := VStr "g" ]},
   [ {[ "hdu" := VInt 1; "calibDate" := VStr "unknown" ]};
     {[ "hdu" := VInt 2; "calibDate" := VStr "2018-12-31" ]} ]).

Definition primary_only (filename : string) : dict * list dict :=
  ({[ "filter" := VStr "NONE" ]}, []).

(** A stand-in for [butler.get] on the three file-name templates: one
    candidate each, with the extension selector the mapper appends. *)
Definition archive (template : string) (info : dict) : list string :=
  if String.eqb template "cpFlat_filename" then ["/archive/cpFlat/file.fits[1]"]
  else if String.eqb template "cpBias_filename" then ["/archive/cpBias/file.fits[1]"]
  else if String.eqb template "cpIllumcor_filename" then ["/archive/cpIllumcor/file.fits[1]"]
  else [].

(** A stand-in for the filter normalization of the base class, to run
    [translate_filter] on samples: the first word of FILTER. *)
Definition filter_name_of (md : dict) : result value :=
  match md !! "FILTER" with
  | Some (VStr f) => Ok (VStr (Re.nonspace_run (PyStr.strip f)))
  | Some _ => Raise AttributeError
  | None => Raise (NotFoundError "FILTER")
  end.

(** Closes the side conditions of a [Token] once its remainder is given. *)
Ltac token_here := repeat split; try discriminate; try reflexivity.

(** * Properties *)

(** ** Sanity checks of the string layer *)

Example lower_Zero : PyStr.lower " Zero " = " zero ".
Proof. reflexivity. Qed.

Example strip_Zero : PyStr.strip "  Zero  " = "Zero".
Proof. reflexivity. Qed.

Example find_bracket : PyStr.find "[" "/archive/cpFlat/file.fits[1]" = 25.
Proof. reflexivity. Qed.

Example search_date_obs : Re.search_date "2020-05-13T00:00:00" = Some "2020-05-13".
Proof. reflexivity. Qed.

Example search_calib_last :
  Re.search_calib "filter" "filter=g ccdnum=12 filter=z" = Some "z".
Proof. reflexivity. Qed.

(** ** Facts about strings *)

Section StringFacts.

Lemma sapp_assoc (a b c : string) : (a ++ b) ++ c = a ++ (b ++ c).
Proof. induction a as [|x a IH]; simpl; [reflexivity | now rewrite IH]. Qed.

Lemma sapp_nil_r (a : string) : a ++ "" = a.
Proof. induction a as [|x a IH]; simpl; [reflexivity | now rewrite IH]. Qed.

Lemma slength_app (a b : string) :
  String.length (a ++ b) = (String.length a + String.length b)%nat.
Proof. induction a as [|x a IH]; simpl; [reflexivity | now rewrite IH]. Qed.

Lemma prefix_app (a t : string) : String.prefix a (a ++ t) = true.
Proof.
  induction a as [|x a IH]; simpl.
  - now destruct t.
  - destruct (ascii_dec x x) as [_|n]; [exact IH | now destruct n].
Qed.

Lemma prefix_inv (a s : string) :
  String.prefix a s = true -> exists t, s = a ++ t.
Proof.
  revert s; induction a as [|x a IH]; intros s H.
  - now exists s.
  - destruct s as [|y s]; simpl in H; [discriminate|].
    destruct (ascii_dec x y) as [->|]; [|discriminate].
    destruct (IH _ H) as [t ->]. now exists t.
Qed.

Lemma drop_app (a t : string) : PyStr.drop (String.length a) (a ++ t) = t.
Proof. induction a as [|x a IH]; simpl; [now destruct t | exact IH]. Qed.

Lemma substring_app (a t : string) :
  String.substring 0 (String.length a) (a ++ t) = a.
Proof.
  induction a as [|x a IH]; simpl.
  - now destruct t.
  - now rewrite IH.
Qed.

End StringFacts.

(** ** The packed-identifier pattern *)

Section CalibIdPattern.
Import PyStr Re.

Lemma nonspace_run_split (t : string) :
  exists rest, t = nonspace_run t ++ rest
               /\ nospace (nonspace_run t) = true /\ run_ends rest.
Proof.
  induction t as [|c t IH]; simpl.
  - exists "". repeat split.
  - destruct (isspace c) eqn:E.
    + exists (String c t). simpl. repeat split. exact E.
    + destruct IH as (rest & H1 & H2 & H3).
      exists rest. simpl. rewrite E, H2. repeat split; trivial.
      now rewrite <- H1.
Qed.

Lemma nonspace_run_app (v rest : string) :
  nospace v = true -> run_ends rest -> nonspace_run (v ++ rest) = v.
Proof.
  induction v as [|c v IH]; simpl; intros Hv Hr.
  - destruct rest as [|c r]; simpl in *; [reflexivity | now rewrite Hr].
  - apply andb_prop in Hv as [Hc Hv].
    apply negb_true_iff in Hc. rewrite Hc. now rewrite IH.
Qed.

(** [match_token] finds exactly the tokens that start the string. *)
Lemma match_token_iff (field t v : string) :
  match_token field t = Some v <-> Token field t "" v.
Proof.
  unfold match_token, Token. split.
  - destruct (String.prefix (field ++ "=") t) eqn:P; [|discriminate].
    apply prefix_inv in P as [u ->].
    replace (String.length field + 1)%nat with (String.length (field ++ "="))
      by (rewrite slength_app; reflexivity).
    rewrite drop_app.
    destruct (nonspace_run_split u) as (rest & H1 & H2 & H3).
    destruct (nonspace_run u) as [|c r] eqn:R; [discriminate|].
    intros [= <-]. exists rest. rewrite sapp_assoc. simpl.
    repeat split; trivial; [now rewrite H1 at 1 | discriminate].
  - intros (rest & -> & Hne & Hv & Hr). simpl.
    replace (field ++ String "=" (v ++ rest)) with ((field ++ "=") ++ (v ++ rest))
      by (rewrite sapp_assoc; reflexivity).
    rewrite prefix_app.
    replace (String.length field + 1)%nat with (String.length (field ++ "="))
      by (rewrite slength_app; reflexivity).
    rewrite drop_app, nonspace_run_app by assumption.
    destruct v; [now destruct Hne | reflexivity].
Qed.

Lemma Token_shift (field s pre v : string) (c : ascii) :
  Token field (String c s) (String c pre) v <-> Token field s pre v.
Proof.
  unfold Token; split; intros (rest & E & H); exists rest; split; trivial.
  - simpl in E. now injection E.
  - simpl. now rewrite E.
Qed.

(** A token of [String c s] stands at the head or inside [s]. *)
Lemma Token_cons_inv (field s pre v : string) (c : ascii) :
  Token field (String c s) pre v ->
  pre = "" \/ exists pre', pre = String c pre' /\ Token field s pre' v.
Proof.
  destruct pre as [|x pre]; [now left | right].
  destruct H as (rest & E & H'). simpl in E. injection E as -> E.
  exists pre. split; [reflexivity|]. exists rest. now split.
Qed.

Lemma single_line_cons (c : ascii) (s : string) :
  single_line (String c s) = true <->
  isnewline c = false /\ single_line s = true.
Proof.
  simpl. rewrite andb_true_iff, negb_true_iff. reflexivity.
Qed.

(** The anchored pattern: on success the token taken is the rightmost one
    that [.*] can reach, that is, the rightmost one on the first line;
    on failure the first line holds no token. *)
Lemma match_dotstar_token_spec (field s : string) :
  match match_dotstar_token field s with
  | Some v =>
      exists pre,
        Token field s pre v /\ single_line pre = true
        /\ forall pre' v', Token field s pre' v' -> single_line pre' = true ->
                           (String.length pre' <= String.length pre)%nat
  | None =>
      forall pre v, Token field s pre v -> single_line pre = true -> False
  end.
Proof.
  induction s as [|c s IH].
  - simpl. destruct (match_token field "") as [v|] eqn:M.
    + exists "". apply match_token_iff in M. repeat split; trivial.
      intros pre' v' (rest & E & _) _. destruct pre'; [simpl; lia | discriminate].
    + intros pre v T _. destruct pre.
      * apply match_token_iff in T. congruence.
      * destruct T as (rest & E & _). discriminate.
  - simpl. destruct (isnewline c) eqn:N.
    + destruct (match_token field (String c s)) as [v|] eqn:M.
      * exists "". apply match_token_iff in M. repeat split; trivial.
        intros pre' v' T L. apply Token_cons_inv in T as [->|(p & -> & _)].
        -- simpl; lia.
        -- apply single_line_cons in L as [L _]. congruence.
      * intros pre v T L. apply Token_cons_inv in T as T'.
        destruct T' as [->|(p & -> & _)].
        -- apply match_token_iff in T. congruence.
        -- apply single_line_cons in L as [L _]. congruence.
    + destruct (match_dotstar_token field s) as [v0|].
      * destruct IH as (pre & T & L & Max).
        exists (String c pre). split; [now apply Token_shift|].
        split; [apply single_line_cons; now split|].
        intros pre' v' T' L'. apply Token_cons_inv in T' as [->|(p & -> & T')].
        -- simpl; lia.
        -- apply single_line_cons in L' as [_ L'].
           specialize (Max _ _ T' L'). simpl. lia.
      * destruct (match_token field (String c s)) as [v|] eqn:M.
        -- exists "". apply match_token_iff in M. repeat split; trivial.
           intros pre' v' T' L'. apply Token_cons_inv in T' as [->|(p & -> & T')].
           ++ simpl; lia.
           ++ apply single_line_cons in L' as [_ L']. destruct (IH _ _ T' L').
        -- intros pre v T L. apply Token_cons_inv in T as T'.
           destruct T' as [->|(p & -> & T')].
           ++ apply match_token_iff in T. congruence.
           ++ apply single_line_cons in L as [_ L]. exact (IH _ _ T' L).
Qed.

(** The search succeeds exactly when the string holds a token. *)
Lemma search_calib_Some (field s v : string) :
  search_calib field s = Some v -> exists pre, Token field s pre v.
Proof.
  induction s as [|c s IH]; simpl; intros H.
  - destruct (match_token field "") eqn:M; [|discriminate].
    injection H as ->. exists "". now apply match_token_iff.
  - pose proof (match_dotstar_token_spec field (String c s)) as D.
    simpl in D. destruct (match _ with Some _ => _ | None => match_token _ _ end).
    + injection H as ->. destruct D as (pre & T & _). now exists pre.
    + destruct (IH H) as (pre & T). exists (String c pre). now apply Token_shift.
Qed.

Lemma search_calib_None (field s : string) :
  search_calib field s = None -> forall pre v, ~ Token field s pre v.
Proof.
  induction s as [|c s IH]; intros H pre v T.
  - simpl in H. destruct (match_token field "") eqn:M; [discriminate|].
    destruct pre.
    + apply match_token_iff in T. congruence.
    + destruct T as (rest & E & _). discriminate.
  - pose proof (match_dotstar_token_spec field (String c s)) as D.
    cbn [search_calib] in H.
    destruct (match_dotstar_token field (String c s)); [discriminate|].
    apply Token_cons_inv in T as T'. destruct T' as [->|(p & -> & T')].
    + exact (D _ _ T eq_refl).
    + exact (IH H _ _ T').
Qed.

Lemma Token_single_line (field s pre v : string) :
  Token field s pre v -> single_line s = true -> single_line pre = true.
Proof.
  revert s; induction pre as [|c pre IH]; intros s T L; [reflexivity|].
  destruct T as (rest & -> & T). simpl in L.
  apply andb_prop in L as [N L]. simpl. rewrite N. simpl.
  apply (IH (pre ++ field ++ "=" ++ v ++ rest)); [|exact L].
  exists rest. now split.
Qed.

(** On a packed identifier without line break the search is the anchored
    match at the first position. *)
Lemma search_calib_single_line (field s : string) :
  single_line s = true ->
  search_calib field s = match_dotstar_token field s.
Proof.
  intros L. pose proof (match_dotstar_token_spec field s) as D.
  destruct (search_calib field s) as [v|] eqn:S.
  - destruct s as [|c s]; simpl in S |- *.
    + now destruct (match_token field "").
    + simpl in D.
      destruct (match _ with Some _ => _ | None => match_token _ _ end) as [w|];
        [congruence|].
      exfalso. apply search_calib_Some in S as (pre & T).
      apply (D (String c pre) v); [now apply Token_shift|].
      apply (Token_single_line field (String c s) (String c pre) v);
        [now apply Token_shift | exact L].
  - destruct (match_dotstar_token field s) as [w|]; [|reflexivity].
    destruct D as (pre & T & _). destruct (search_calib_None _ _ S _ _ T).
Qed.

End CalibIdPattern.

(** ** The date pattern *)

Section DatePattern.
Import PyStr Re.

Lemma match_shape_Some (p : list (ascii -> bool)) (s m : string) :
  match_shape p s = Some m ->
  (exists suf, s = m ++ suf)
  /\ Forall2 (fun (t : ascii -> bool) c => t c = true) p (list_ascii_of_string m).
Proof.
  revert s m; induction p as [|t p IH]; intros s m H; simpl in H.
  - injection H as <-. split; [now exists s | constructor].
  - destruct s as [|c s]; [discriminate|].
    destruct (t c) eqn:T; [|discriminate].
    destruct (match_shape p s) as [m'|] eqn:M; [|discriminate].
    injection H as <-. destruct (IH _ _ M) as [[suf ->] F].
    split; [now exists suf | now constructor].
Qed.

Lemma match_shape_complete (p : list (ascii -> bool)) (m suf : string) :
  Forall2 (fun (t : ascii -> bool) c => t c = true) p (list_ascii_of_string m) ->
  match_shape p (m ++ suf) = Some m.
Proof.
  revert m; induction p as [|t p IH]; intros m F.
  - destruct m; [reflexivity | inversion F].
  - destruct m as [|c m]; simpl in F; [inversion F|].
    inversion F as [|? ? ? ? T F']; subst. simpl. rewrite T.
    now rewrite (IH _ F').
Qed.

Lemma search_date_Some (s d : string) :
  search_date s = Some d -> first_date s d.
Proof.
  revert d; induction s as [|c s IH]; intros d H.
  - simpl in H. discriminate.
  - cbn [search_date] in H.
    destruct (match_shape date_shape (String c s)) as [m|] eqn:M.
    + injection H as ->. apply match_shape_Some in M as [[suf E] F].
      exists "", suf. repeat split; trivial. intros; simpl; lia.
    + destruct (IH _ H) as (pre & suf & E & F & Min).
      exists (String c pre), suf. split; [simpl; now rewrite E|].
      split; [exact F|]. intros pre' d' suf' E' F'.
      destruct pre' as [|x pre'].
      * simpl in E'. rewrite E', (match_shape_complete _ _ _ F') in M.
        discriminate.
      * simpl in E'. injection E' as _ E'. specialize (Min _ _ _ E' F').
        simpl. lia.
Qed.

Lemma search_date_None (s : string) :
  search_date s = None -> ~ has_date s.
Proof.
  induction s as [|c s IH]; intros H (pre & d & suf & E & F).
  - destruct pre; [|discriminate]. simpl in E.
    destruct d; [inversion F | discriminate].
  - cbn [search_date] in H.
    destruct (match_shape date_shape (String c s)) as [m|] eqn:M; [discriminate|].
    destruct pre as [|x pre].
    + simpl in E. rewrite E, (match_shape_complete _ _ _ F) in M. discriminate.
    + simpl in E. injection E as _ E. apply (IH H). now exists pre, d, suf.
Qed.

Lemma search_date_has_date (s : string) :
  has_date s -> exists d, search_date s = Some d /\ first_date s d.
Proof.
  intros H. destruct (search_date s) as [d|] eqn:S.
  - exists d. split; [reflexivity | now apply search_date_Some].
  - now apply search_date_None in S.
Qed.

End DatePattern.

(** ** The header source *)

Section Header.

Lemma md_present (md : dict) (key : string) (v : value) :
  md !! key = Some v ->
  Md.exists_ md key = true /\ Md.getScalar md key = Ok v.
Proof. unfold Md.exists_, Md.getScalar. now intros ->. Qed.

Lemma md_absent (md : dict) (key : string) :
  md !! key = None ->
  Md.exists_ md key = false /\ Md.getScalar md key = Raise (NotFoundError key).
Proof. unfold Md.exists_, Md.getScalar. now intros ->. Qed.

Lemma translateFromCalibId_str (field : string) (md : dict) (s : string) :
  md !! "CALIB_ID" = Some (VStr s) ->
  _translateFromCalibId field md =
    match Re.search_calib field s with
    | Some v => Ok (VStr v)
    | None => Raise AttributeError
    end.
Proof.
  intros H. unfold _translateFromCalibId.
  now rewrite (proj2 (md_present _ _ _ H)).
Qed.

Lemma translateFromCalibId_found (field : string) (md : dict) (s : string) :
  md !! "CALIB_ID" = Some (VStr s) ->
  (exists pre v, Token field s pre v) ->
  exists pre v, Token field s pre v /\ _translateFromCalibId field md = Ok (VStr v).
Proof.
  intros H (pre & v & T). rewrite (translateFromCalibId_str _ _ _ H).
  destruct (Re.search_calib field s) as [w|] eqn:S.
  - apply search_calib_Some in S as (p & T'). now exists p, w.
  - destruct (search_calib_None _ _ S _ _ T).
Qed.

Lemma translateFromCalibId_absent (field : string) (md : dict) :
  md !! "CALIB_ID" = None ->
  _translateFromCalibId field md = Raise (NotFoundError "CALIB_ID").
Proof.
  intros H. unfold _translateFromCalibId.
  now rewrite (proj2 (md_absent _ _ H)).
Qed.

End Header.

(** ** The packed identifier: [_translateFromCalibId] *)

(** C9. For a field name [F] that the pattern takes literally and a header
    whose CALIB_ID is the string [s]: when [s] holds a token matching
    [F=(\S+)], [_translateFromCalibId] returns the non-whitespace run
    captured at such a token; when [s] holds no such token, the call ends
    in an exception ([None] has no [groups]) and returns no sentinel. *)
Theorem translateFromCalibId_token (field : string) (md : dict) (s : string) :
  Re.plain_field field = true ->
  md !! "CALIB_ID" = Some (VStr s) ->
  ((exists pre v, Token field s pre v) ->
   exists pre v, Token field s pre v
                 /\ _translateFromCalibId field md = Ok (VStr v))
  /\ ((forall pre v, ~ Token field s pre v) ->
      _translateFromCalibId field md = Raise AttributeError).
Proof.
  intros _ H. split.
  - now apply translateFromCalibId_found.
  - intros No. rewrite (translateFromCalibId_str _ _ _ H).
    destruct (Re.search_calib field s) as [w|] eqn:S; [|reflexivity].
    apply search_calib_Some in S as (p & T). destruct (No _ _ T).
Qed.

Lemma translateFromCalibId_token_witness :
  (exists pre v,
     Token "ccdnum" calib_id_example pre v
     /\ _translateFromCalibId "ccdnum" {[ "CALIB_ID" := VStr calib_id_example ]}
        = Ok (VStr v))
  /\ _translateFromCalibId "ccdnum" {[ "CALIB_ID" := VStr "filter=g" ]}
     = Raise AttributeError.
Proof.
  split.
  - refine (proj1 (translateFromCalibId_token
                     "ccdnum" {[ "CALIB_ID" := VStr calib_id_example ]}
                     calib_id_example _ _) _); [reflexivity | reflexivity |].
    exists "filter=g ", "12", " calibDate=2019-01-01".
    token_here.
  - refine (proj2 (translateFromCalibId_token
                     "ccdnum" {[ "CALIB_ID" := VStr "filter=g" ]}
                     "filter=g" _ _) _); [reflexivity | reflexivity |].
    apply search_calib_None. reflexivity.
Defined.

(** C10, as the code has it. When the CALIB_ID string has no line break
    and holds at least one token matching [F=(\S+)], the value returned is
    the one of the rightmost such token: every token of the string starts
    at or before the one whose value is returned. *)
Theorem translateFromCalibId_rightmost (field : string) (md : dict) (s : string) :
  Re.plain_field field = true ->
  md !! "CALIB_ID" = Some (VStr s) ->
  single_line s = true ->
  (exists pre v, Token field s pre v) ->
  exists pre v,
    Token field s pre v
    /\ _translateFromCalibId field md = Ok (VStr v)
    /\ forall pre' v', Token field s pre' v' ->
                       (String.length pre' <= String.length pre)%nat.
Proof.
  intros _ H L (p0 & v0 & T0). rewrite (translateFromCalibId_str _ _ _ H).
  rewrite (search_calib_single_line _ _ L).
  pose proof (match_dotstar_token_spec field s) as D.
  destruct (Re.match_dotstar_token field s) as [w|].
  - destruct D as (pre & T & _ & Max). exists pre, w.
    repeat split; trivial. intros pre' v' T'.
    apply (Max _ _ T'). exact (Token_single_line _ _ _ _ T' L).
  - destruct (D _ _ T0 (Token_single_line _ _ _ _ T0 L)).
Qed.

Lemma translateFromCalibId_rightmost_witness :
  exists pre v,
    Token "filter" calib_id_twice pre v
    /\ _translateFromCalibId "filter" {[ "CALIB_ID" := VStr calib_id_twice ]}
       = Ok (VStr v)
    /\ forall pre' v', Token "filter" calib_id_twice pre' v' ->
                       (String.length pre' <= String.length pre)%nat.
Proof.
  refine (translateFromCalibId_rightmost
            "filter" {[ "CALIB_ID" := VStr calib_id_twice ]}
            calib_id_twice _ _ _ _); [reflexivity | reflexivity | reflexivity |].
  exists "", "g", " ccdnum=12 filter=z".
  token_here.
Defined.

(** C10 as stated fails across a line break: [.] stops at the newline, so
    the token of the first line is returned although another one follows. *)
Lemma translateFromCalibId_first_line_wins :
  Token "filter" calib_id_two_lines "" "g"
  /\ Token "filter" calib_id_two_lines ("filter=g" ++ String "010" "") "r"
  /\ _translateFromCalibId "filter" {[ "CALIB_ID" := VStr calib_id_two_lines ]}
     = Ok (VStr "g")
  /\ _translateFromCalibId "filter" {[ "CALIB_ID" := VStr calib_id_two_lines ]}
     <> Ok (VStr "r").
Proof.
  split; [|split; [|split]].
  - exists (String "010" "filter=r"). token_here.
  - exists "". token_here.
  - reflexivity.
  - discriminate.
Qed.

(** ** The field translators *)

(** C3. [translate_date] returns (1) the leftmost [YYYY-MM-DD] substring of
    DATE-OBS when DATE-OBS is a string that has one; (2) ["unknown"] and
    one logged warning when DATE-OBS is a string without such a substring;
    (3) what the packed CALIB_ID yields for [calibDate] when DATE-OBS is
    absent and CALIB_ID exists, which is the value of a [calibDate=] token
    when the identifier holds one; (4) ["unknown"] when neither exists. *)
Theorem translate_date_cases (md : dict) :
  (forall s, md !! "DATE-OBS" = Some (VStr s) -> has_date s ->
             exists d, first_date s d /\ translate_date md = (Ok (VStr d), []))
  /\ (forall s, md !! "DATE-OBS" = Some (VStr s) -> ~ has_date s ->
                translate_date md = (Ok (VStr "unknown"), [warning_date_format]))
  /\ (md !! "DATE-OBS" = None -> is_Some (md !! "CALIB_ID") ->
      translate_date md = (_translateFromCalibId "calibDate" md, [])
      /\ forall s, md !! "CALIB_ID" = Some (VStr s) ->
                   (exists pre v, Token "calibDate" s pre v) ->
                   exists pre v, Token "calibDate" s pre v
                                 /\ translate_date md = (Ok (VStr v), []))
  /\ (md !! "DATE-OBS" = None -> md !! "CALIB_ID" = None ->
      translate_date md = (Ok (VStr "unknown"), [])).
Proof.
  unfold translate_date. repeat split.
  - intros s H D. destruct (md_present _ _ _ H) as [-> ->].
    destruct (search_date_has_date _ D) as (d & -> & F). now exists d.
  - intros s H D. destruct (md_present _ _ _ H) as [-> ->].
    destruct (Re.search_date s) as [d|] eqn:S; [|reflexivity].
    destruct D. apply search_date_Some in S as (pre & suf & E & F & _).
    now exists pre, d, suf.
  - destruct H0 as [v Hv].
    rewrite (proj1 (md_absent _ _ H)), (proj1 (md_present _ _ _ Hv)).
    reflexivity.
  - intros s Hs T. destruct (translateFromCalibId_found _ _ _ Hs T) as (p & v & T' & E).
    exists p, v. split; [exact T'|].
    rewrite (proj1 (md_absent _ _ H)), (proj1 (md_present _ _ _ Hs)).
    now rewrite E.
  - intros H1 H2.
    rewrite (proj1 (md_absent _ _ H1)), (proj1 (md_absent _ _ H2)).
    reflexivity.
Qed.

Lemma translate_date_cases_witness :
  (exists d, first_date "2020-05-13T00:00:00" d
             /\ translate_date {[ "DATE-OBS" := VStr "2020-05-13T00:00:00" ]}
                = (Ok (VStr d), []))
  /\ translate_date {[ "DATE-OBS" := VStr "garbage" ]}
     = (Ok (VStr "unknown"), [warning_date_format])
  /\ (exists pre v, Token "calibDate" calib_id_example pre v
                    /\ translate_date {[ "CALIB_ID" := VStr calib_id_example ]}
                       = (Ok (VStr v), []))
  /\ translate_date ∅ = (Ok (VStr "unknown"), []).
Proof.
  split; [|split; [|split]].
  - refine (proj1 (translate_date_cases _) "2020-05-13T00:00:00" _ _);
      [reflexivity|].
    exists "", "2020-05-13", "T00:00:00". split; [reflexivity|].
    repeat constructor.
  - refine (proj1 (proj2 (translate_date_cases _)) "garbage" _ _);
      [reflexivity|].
    intros H. apply search_date_has_date in H as (d & H & _). discriminate H.
  - refine (proj2 (proj1 (proj2 (proj2 (translate_date_cases _))) _ _)
                  calib_id_example _ _);
      [reflexivity | now eexists | reflexivity |].
    exists "filter=g ccdnum=12 ", "2019-01-01", "". token_here.
  - refine (proj2 (proj2 (proj2 (translate_date_cases _))) _ _); reflexivity.
Defined.

(** C4. [translate_filter] returns ["NONE"] whenever FILTER exists and
    OBSTYPE is a string whose trimmed, lower-cased form contains ["zero"],
    whatever FILTER holds; with FILTER present and OBSTYPE absent or a
    string without ["zero"] it returns what the base translator returns;
    with FILTER absent and CALIB_ID present it returns what the packed
    identifier yields for [filter]; with neither it returns ["unknown"]. *)
Theorem translate_filter_cases (base : dict -> result value) (md : dict) :
  (forall o, is_Some (md !! "FILTER") -> md !! "OBSTYPE" = Some (VStr o) ->
             PyStr.contains "zero" (PyStr.lower (PyStr.strip o)) = true ->
             translate_filter base md = Ok (VStr "NONE"))
  /\ (is_Some (md !! "FILTER") ->
      (md !! "OBSTYPE" = None
       \/ exists o, md !! "OBSTYPE" = Some (VStr o)
                    /\ PyStr.contains "zero" (PyStr.lower (PyStr.strip o)) = false) ->
      translate_filter base md = base md)
  /\ (md !! "FILTER" = None -> is_Some (md !! "CALIB_ID") ->
      translate_filter base md = _translateFromCalibId "filter" md
      /\ forall s, md !! "CALIB_ID" = Some (VStr s) ->
                   (exists pre v, Token "filter" s pre v) ->
                   exists pre v, Token "filter" s pre v
                                 /\ translate_filter base md = Ok (VStr v))
  /\ (md !! "FILTER" = None -> md !! "CALIB_ID" = None ->
      translate_filter base md = Ok (VStr "unknown")).
Proof.
  unfold translate_filter. repeat split.
  - intros o [f Hf] Ho Z.
    rewrite (proj1 (md_present _ _ _ Hf)).
    destruct (md_present _ _ _ Ho) as [-> ->]. simpl. now rewrite Z.
  - intros [f Hf] [Ho|(o & Ho & Z)]; rewrite (proj1 (md_present _ _ _ Hf)).
    + now rewrite (proj1 (md_absent _ _ Ho)).
    + destruct (md_present _ _ _ Ho) as [-> ->]. simpl. now rewrite Z.
  - destruct H0 as [v Hv].
    now rewrite (proj1 (md_absent _ _ H)), (proj1 (md_present _ _ _ Hv)).
  - intros s Hs T. destruct (translateFromCalibId_found _ _ _ Hs T) as (p & v & T' & E).
    exists p, v. split; [exact T'|].
    now rewrite (proj1 (md_absent _ _ H)), (proj1 (md_present _ _ _ Hs)).
  - intros H1 H2.
    now rewrite (proj1 (md_absent _ _ H1)), (proj1 (md_absent _ _ H2)).
Qed.

Lemma translate_filter_cases_witness :
  translate_filter filter_name_of {[ "OBSTYPE" := VStr "Zero"; "FILTER" := VStr "g" ]}
  = Ok (VStr "NONE")
  /\ translate_filter filter_name_of {[ "OBSTYPE" := VStr "dome flat";
                                        "FILTER" := VStr "g DECam SDSS c0001" ]}
     = filter_name_of {[ "OBSTYPE" := VStr "dome flat";
                         "FILTER" := VStr "g DECam SDSS c0001" ]}
  /\ (exists pre v, Token "filter" calib_id_twice pre v
                    /\ translate_filter filter_name_of
                         {[ "CALIB_ID" := VStr calib_id_twice ]} = Ok (VStr v))
  /\ translate_filter filter_name_of ∅ = Ok (VStr "unknown").
Proof.
  split; [|split; [|split]].
  - refine (proj1 (translate_filter_cases _ _) "Zero" _ _ _);
      [now eexists | reflexivity | reflexivity].
  - refine (proj1 (proj2 (translate_filter_cases _ _)) _ _); [now eexists|].
    right. exists "dome flat". split; reflexivity.
  - refine (proj2 (proj1 (proj2 (proj2 (translate_filter_cases _ _))) _ _)
                  calib_id_twice _ _);
      [reflexivity | now eexists | reflexivity |].
    exists "", "g", " ccdnum=12 filter=z". token_here.
  - refine (proj2 (proj2 (proj2 (translate_filter_cases _ _))) _ _); reflexivity.
Defined.

(** What [translate_ccdnum] does with a CCDNUM card. *)
Lemma translate_ccdnum_scalar (md : dict) (v : value) :
  md !! "CCDNUM" = Some v -> isSequence v = false -> translate_ccdnum md = Ok v.
Proof.
  intros H S. unfold translate_ccdnum.
  destruct (md_present _ _ _ H) as [-> ->]. simpl. now rewrite S.
Qed.

Lemma translate_ccdnum_first (md : dict) (x : value) (l : list value) :
  md !! "CCDNUM" = Some (VList (x :: l)) -> translate_ccdnum md = Ok x.
Proof.
  intros H. unfold translate_ccdnum. now destruct (md_present _ _ _ H) as [-> ->].
Qed.

Lemma translate_ccdnum_empty (md : dict) :
  md !! "CCDNUM" = Some (VList []) -> translate_ccdnum md = Ok VNone.
Proof.
  intros H. unfold translate_ccdnum. now destruct (md_present _ _ _ H) as [-> ->].
Qed.

Lemma translate_ccdnum_fallback (md : dict) :
  md !! "CCDNUM" = None ->
  translate_ccdnum md = _translateFromCalibId "ccdnum" md.
Proof.
  intros H. unfold translate_ccdnum. now rewrite (proj1 (md_absent _ _ H)).
Qed.

Example translate_ccdnum_seven :
  translate_ccdnum {[ "CCDNUM" := VList [VInt 7] ]} = Ok (VInt 7).
Proof. reflexivity. Qed.

(** C5, at the packed identifier. With CCDNUM absent and a CALIB_ID that
    holds [ccdnum=12], [translate_ccdnum] returns the text ["12"] that the
    pattern captured, and not the integer 12. *)
Theorem translate_ccdnum_calib_id_text :
  ({[ "CALIB_ID" := VStr calib_id_example ]} : dict) !! "CCDNUM" = None
  /\ translate_ccdnum {[ "CALIB_ID" := VStr calib_id_example ]} = Ok (VStr "12")
  /\ translate_ccdnum {[ "CALIB_ID" := VStr calib_id_example ]} <> Ok (VInt 12).
Proof. repeat split. discriminate. Qed.

(** ** [getInfo] *)

Section GetInfo.

Lemma lookup_map {A B : Type} (f : A -> B) (l : list A) (i : nat) :
  map f l !! i = f <$> (l !! i).
Proof.
  revert i; induction l as [|x l IH]; intros [|i]; simpl; trivial.
Qed.

Lemma set_calib_hdu_other (item : dict) (k : string) :
  k <> "calib_hdu" -> set_calib_hdu item !! k = item !! k.
Proof.
  intros N. unfold set_calib_hdu.
  destruct (item !! "hdu"); now rewrite lookup_insert_ne.
Qed.

Lemma set_calib_hdu_value (item : dict) :
  set_calib_hdu item !! "calib_hdu" = Some (default (VInt 1) (item !! "hdu")).
Proof.
  unfold set_calib_hdu.
  destruct (item !! "hdu"); now rewrite lookup_insert_eq.
Qed.

Lemma eq_str_false (v : value) (s : string) :
  v <> VStr s -> eq_str v s = false.
Proof.
  intros N. destruct v as [| |t|]; trivial. simpl.
  apply String.eqb_neq. congruence.
Qed.

Lemma set_calibDate_other (date : string) (info : dict) (k : string) :
  k <> "calibDate" -> set_calibDate date info !! k = info !! k.
Proof.
  intros N. unfold set_calibDate.
  destruct (info !! "calibDate") as [v|]; [destruct (eq_str v "unknown")|];
    trivial; now rewrite lookup_insert_ne.
Qed.

Lemma set_calibDate_fills (date : string) (info : dict) :
  info !! "calibDate" = None \/ info !! "calibDate" = Some (VStr "unknown") ->
  set_calibDate date info !! "calibDate" = Some (VStr date).
Proof.
  unfold set_calibDate. intros [-> | ->]; simpl; apply lookup_insert_eq.
Qed.

Lemma set_calibDate_keeps (date : string) (info : dict) (v : value) :
  info !! "calibDate" = Some v -> v <> VStr "unknown" ->
  set_calibDate date info = info.
Proof.
  unfold set_calibDate. intros -> N. now rewrite (eq_str_false _ _ N).
Qed.

Variable base : string -> dict * list dict.
Variable filename : string.

Lemma stamped_other (r : dict) (k : string) :
  k <> "path" -> k <> "calib_hdu" -> stamped filename r !! k = r !! k.
Proof.
  intros N1 N2. unfold stamped.
  now rewrite set_calib_hdu_other, lookup_insert_ne.
Qed.

Lemma stamped_path (r : dict) :
  stamped filename r !! "path" = Some (VStr filename).
Proof.
  unfold stamped. rewrite set_calib_hdu_other by discriminate.
  apply lookup_insert_eq.
Qed.

Lemma stamped_calib_hdu (r : dict) :
  stamped filename r !! "calib_hdu" = Some (default (VInt 1) (r !! "hdu")).
Proof.
  unfold stamped. rewrite set_calib_hdu_value.
  now rewrite lookup_insert_ne by discriminate.
Qed.

(** The list [getInfo] returns, record by record. *)
Lemma getInfo_records :
  snd (getInfo base filename) =
    map (fun r => match Re.search_date filename with
                  | Some date => set_calibDate date (stamped filename r)
                  | None => stamped filename r
                  end)
        (extension_records (base filename)).
Proof.
  unfold getInfo, extension_records.
  destruct (base filename) as [phu l]. simpl.
  destruct (Re.search_date filename);
    destruct l; simpl; rewrite ?map_map; reflexivity.
Qed.

(** Without extension records the primary record returned is the one
    record of the list. *)
Lemma getInfo_shared :
  snd (base filename) = [] ->
  exists r, getInfo base filename = (r, [r]).
Proof.
  unfold getInfo. destruct (base filename) as [phu l]. simpl. intros ->.
  destruct (Re.search_date filename); simpl; eauto.
Qed.

End GetInfo.

(** C6. When the file name has a substring of the shape [DDDD-DD-DD], with
    [d] the leftmost one, every extension record whose [calibDate] is
    absent or ["unknown"] comes back with [calibDate] equal to [d]; and,
    whatever the file name, a record whose [calibDate] is another value
    comes back with that value. *)
Theorem getInfo_calibDate_fallback (base : string -> dict * list dict)
    (filename : string) :
  (has_date filename ->
   exists d, first_date filename d
     /\ forall (i : nat) (rec : dict),
          extension_records (base filename) !! i = Some rec ->
          rec !! "calibDate" = None \/ rec !! "calibDate" = Some (VStr "unknown") ->
          exists rec', snd (getInfo base filename) !! i = Some rec'
                       /\ rec' !! "calibDate" = Some (VStr d))
  /\ (forall (i : nat) (rec : dict) (v : value),
        extension_records (base filename) !! i = Some rec ->
        rec !! "calibDate" = Some v -> v <> VStr "unknown" ->
        exists rec', snd (getInfo base filename) !! i = Some rec'
                     /\ rec' !! "calibDate" = Some v).
Proof.
  rewrite getInfo_records. split.
  - intros D. destruct (search_date_has_date _ D) as (d & -> & F).
    exists d. split; [exact F|]. intros i rec Hi Hd.
    rewrite lookup_map, Hi. simpl. eexists. split; [reflexivity|].
    apply set_calibDate_fills.
    now rewrite !stamped_other by discriminate.
  - intros i rec v Hi Hv N. rewrite lookup_map, Hi. simpl.
    eexists. split; [reflexivity|].
    assert (S : stamped filename rec !! "calibDate" = Some v)
      by now rewrite stamped_other by discriminate.
    destruct (Re.search_date filename) as [d|]; [|exact S].
    now rewrite (set_calibDate_keeps _ _ _ S N).
Qed.

Lemma getInfo_calibDate_fallback_witness :
  (exists d, first_date "cpFlat_2019-01-01_g.fits" d
     /\ forall (i : nat) (rec : dict),
          extension_records (two_extensions "cpFlat_2019-01-01_g.fits") !! i
            = Some rec ->
          rec !! "calibDate" = None \/ rec !! "calibDate" = Some (VStr "unknown") ->
          exists rec', snd (getInfo two_extensions "cpFlat_2019-01-01_g.fits") !! i
                         = Some rec'
                       /\ rec' !! "calibDate" = Some (VStr d))
  /\ exists rec', snd (getInfo two_extensions "cpFlat_2019-01-01_g.fits") !! 1%nat
                    = Some rec'
                  /\ rec' !! "calibDate" = Some (VStr "2018-12-31").
Proof.
  split.
  - apply (proj1 (getInfo_calibDate_fallback two_extensions _)).
    exists "cpFlat_", "2019-01-01", "_g.fits". split; [reflexivity|].
    repeat constructor.
  - refine (proj2 (getInfo_calibDate_fallback two_extensions _) 1%nat _
                  (VStr "2018-12-31") _ _ _); [reflexivity | reflexivity | discriminate].
Defined.

(** C7, as the code has it. Every record of the returned list has [path]
    equal to the file name. When the base class reports no extension
    record, exactly one record is returned, and it is the returned primary
    record: the primary record of the base class with [path] set to the
    file name and [calib_hdu] set to its [hdu] (1 without one); its other
    fields, [calibDate] apart, are those of the primary record. *)
Theorem getInfo_path (base : string -> dict * list dict) (filename : string) :
  (forall r, In r (snd (getInfo base filename)) ->
             r !! "path" = Some (VStr filename))
  /\ (snd (base filename) = [] ->
      exists r,
        getInfo base filename = (r, [r])
        /\ r !! "path" = Some (VStr filename)
        /\ r !! "calib_hdu" = Some (default (VInt 1) (fst (base filename) !! "hdu"))
        /\ forall k, k <> "path" -> k <> "calib_hdu" -> k <> "calibDate" ->
                     r !! k = fst (base filename) !! k).
Proof.
  split.
  - intros r. rewrite getInfo_records, in_map_iff. intros (r0 & <- & _).
    destruct (Re.search_date filename);
      rewrite ?set_calibDate_other by discriminate; apply stamped_path.
  - intros E. destruct (getInfo_shared base filename E) as [r Hr].
    exists r. split; [exact Hr|].
    pose proof (getInfo_records base filename) as R.
    rewrite Hr in R. unfold extension_records in R. rewrite E in R.
    simpl in R. injection R as ->.
    destruct (Re.search_date filename); repeat split;
      intros; rewrite ?set_calibDate_other by (discriminate || assumption);
      auto using stamped_path, stamped_calib_hdu, stamped_other.
Qed.

Lemma getInfo_path_witness :
  exists r,
    getInfo primary_only "zero.fits" = (r, [r])
    /\ r !! "path" = Some (VStr "zero.fits")
    /\ r !! "calib_hdu"
       = Some (default (VInt 1) (fst (primary_only "zero.fits") !! "hdu"))
    /\ forall k, k <> "path" -> k <> "calib_hdu" -> k <> "calibDate" ->
                 r !! k = fst (primary_only "zero.fits") !! k.
Proof.
  apply (proj2 (getInfo_path primary_only "zero.fits")). reflexivity.
Defined.

(** C7 as stated fails: the one record returned for a file without
    extension records is not the primary record with only [path] added,
    since [calib_hdu] is set as well. *)
Lemma getInfo_sets_calib_hdu_too :
  snd (primary_only "zero.fits") = []
  /\ snd (getInfo primary_only "zero.fits")
     <> [ <["path" := VStr "zero.fits"]> (fst (primary_only "zero.fits")) ].
Proof.
  split; [reflexivity|]. intros H.
  apply (f_equal (fun l => hd ∅ l !! "calib_hdu")) in H.
  vm_compute in H. discriminate H.
Qed.

(** ** [getDestination] *)

Section Find.
Import PyStr.

Lemma prefix_bracket_cons (c : ascii) (t : string) :
  String.prefix "[" (String c t) = true <-> c = "["%char.
Proof.
  change (String.prefix "[" (String c t))
    with (if ascii_dec "[" c then String.prefix "" t else false).
  destruct (ascii_dec "[" c) as [<-|N].
  - split; trivial. now destruct t.
  - split; [intros H; discriminate H | intros E; congruence].
Qed.

Lemma no_bracket_cons (c : ascii) (s : string) :
  no_bracket (String c s) -> c <> "["%char /\ no_bracket s.
Proof.
  intros N. split.
  - intros ->. now apply (N "" s).
  - intros a b ->. now apply (N (String c a) b).
Qed.

Lemma find_from_no_bracket (i : Z) (s : string) :
  no_bracket s -> find_from i "[" s = -1.
Proof.
  revert i; induction s as [|c s IH]; intros i N; [reflexivity|].
  apply no_bracket_cons in N as [Nc N]. cbn [find_from].
  destruct (String.prefix "[" (String c s)) eqn:P.
  - now apply prefix_bracket_cons in P.
  - now apply IH.
Qed.

Lemma find_from_bracket (i : Z) (pre suf : string) :
  no_bracket pre ->
  find_from i "[" (pre ++ "[" ++ suf) = i + Z.of_nat (String.length pre).
Proof.
  revert i; induction pre as [|c pre IH]; intros i N.
  - simpl. destruct suf; simpl; lia.
  - apply no_bracket_cons in N as [Nc N].
    change (String c pre ++ "[" ++ suf) with (String c (pre ++ "[" ++ suf)).
    cbn [find_from].
    destruct (String.prefix "[" (String c (pre ++ "[" ++ suf))) eqn:P.
    + now apply prefix_bracket_cons in P.
    + rewrite (IH _ N). simpl String.length. lia.
Qed.

(** The last three lines of [getDestination]. *)
Lemma strip_hdu_spec (raw : string) :
  let dest := if 0 <? find "[" raw then slice_to (find "[" raw) raw else raw in
  (no_bracket raw -> dest = raw)
  /\ (forall suf, raw = "[" ++ suf -> dest = raw)
  /\ (forall pre suf, raw = pre ++ "[" ++ suf -> no_bracket pre -> pre <> "" ->
                      dest = pre).
Proof.
  unfold find. repeat split.
  - intros N. now rewrite (find_from_no_bracket _ _ N).
  - intros suf ->. now destruct suf.
  - intros pre suf -> N Ne. rewrite (find_from_bracket _ _ _ N).
    destruct pre as [|c pre]; [now destruct Ne|].
    replace (0 <? 0 + Z.of_nat (String.length (String c pre))) with true
      by (symmetry; apply Z.ltb_lt; simpl String.length; lia).
    unfold slice_to. rewrite Z.add_0_l, Nat2Z.id. apply substring_app.
Qed.

End Find.

(** C8, as the code has it. When [getDestination] returns, the candidate
    list of the template it asked for is not empty and, with [raw] its
    first path: a path without ['['] is returned unchanged; so is a path
    that begins with ['[']; a path with a first ['['] further on is cut
    right before it. *)
Theorem getDestination_truncates (getCalibType : string -> string)
    (butler : string -> dict -> list string) (info : dict)
    (filename dest : string) :
  snd (getDestination getCalibType butler info filename) = Ok dest ->
  exists template raw rest,
    butler template (fst (getDestination getCalibType butler info filename))
      = raw :: rest
    /\ (no_bracket raw -> dest = raw)
    /\ (forall suf, raw = "[" ++ suf -> dest = raw)
    /\ (forall pre suf, raw = pre ++ "[" ++ suf -> no_bracket pre -> pre <> "" ->
                        dest = pre).
Proof.
  unfold getDestination. cbn [fst snd].
  set (info' := <["calib_hdu" := VInt 1]> (<["ccdnum" := VInt 1]> info)).
  assert (K : forall template,
             (try! raw := first_candidate (butler template info') in
              let c := PyStr.find "[" raw in
              if 0 <? c then Ok (PyStr.slice_to c raw) else Ok raw) = Ok dest ->
             exists template raw rest,
               butler template info' = raw :: rest
               /\ (no_bracket raw -> dest = raw)
               /\ (forall suf, raw = "[" ++ suf -> dest = raw)
               /\ (forall pre suf, raw = pre ++ "[" ++ suf -> no_bracket pre ->
                                   pre <> "" -> dest = pre)).
  { intros template H. destruct (butler template info') as [|raw rest] eqn:B;
      [discriminate|].
    exists template, raw, rest. split; [exact B|].
    simpl in H. pose proof (strip_hdu_spec raw) as S. simpl in S.
    destruct (0 <? PyStr.find "[" raw); injection H as <-; exact S. }
  destruct (PyStr.contains "flat" _); [apply K|].
  destruct (PyStr.contains (PyStr.py_or "bias" "zero") _); [apply K|].
  destruct (PyStr.contains "illumcor" _); [apply K | discriminate].
Qed.

Lemma getDestination_truncates_witness :
  exists template raw rest,
    archive template (fst (getDestination (fun _ => "dome flat") archive ∅ "flat.fits"))
      = raw :: rest
    /\ (no_bracket raw -> "/archive/cpFlat/file.fits" = raw)
    /\ (forall suf, raw = "[" ++ suf -> "/archive/cpFlat/file.fits" = raw)
    /\ (forall pre suf, raw = pre ++ "[" ++ suf -> no_bracket pre -> pre <> "" ->
                        "/archive/cpFlat/file.fits" = pre).
Proof.
  apply (getDestination_truncates (fun _ => "dome flat") archive ∅ "flat.fits").
  reflexivity.
Defined.

(** C8 as stated fails for a path that begins with ['[']: the prefix
    before the bracket is empty, and the path comes back whole. *)
Lemma getDestination_keeps_leading_bracket :
  "[1]" = "" ++ "[" ++ "1]"
  /\ snd (getDestination (fun _ => "flat") (fun _ _ => ["[1]"]) ∅ "flat.fits")
     = Ok "[1]"
  /\ snd (getDestination (fun _ => "flat") (fun _ _ => ["[1]"]) ∅ "flat.fits")
     <> Ok "".
Proof. repeat split. discriminate. Qed.

Example getDestination_dome_flat :
  snd (getDestination (fun _ => "dome flat") archive ∅ "flat.fits")
  = Ok "/archive/cpFlat/file.fits".
Proof. reflexivity. Qed.

Example getDestination_bias :
  snd (getDestination (fun _ => "BIAS") archive ∅ "bias.fits")
  = Ok "/archive/cpBias/file.fits".
Proof. reflexivity. Qed.

(** The second test of the dispatch looks for ["bias"] only. *)
Lemma bias_or_zero : PyStr.py_or "bias" "zero" = "bias".
Proof. reflexivity. Qed.

(** C1, at the kind ["zero"]. Its lower-cased form contains ["zero"] and
    not ["flat"], yet [getDestination] asks for no template and ends in
    the assertion, whatever the butler holds. *)
Theorem getDestination_zero_asserts (butler : string -> dict -> list string)
    (info : dict) (filename : string) :
  PyStr.contains "zero" (PyStr.lower "zero") = true
  /\ PyStr.contains "flat" (PyStr.lower "zero") = false
  /\ snd (getDestination (fun _ => "zero") butler info filename)
     = Raise (AssertionError "Invalid calibType 'zero'").
Proof. repeat split. Qed.

(** C2. A kind whose lower-cased form contains none of ["flat"], ["bias"],
    ["zero"] and ["illumcor"] ends [getDestination] in the assertion, with
    the kind in its message, and no path is returned. *)
Theorem getDestination_unknown_kind_asserts (getCalibType : string -> string)
    (butler : string -> dict -> list string) (info : dict) (filename : string) :
  PyStr.contains "flat" (PyStr.lower (getCalibType filename)) = false ->
  PyStr.contains "bias" (PyStr.lower (getCalibType filename)) = false ->
  PyStr.contains "zero" (PyStr.lower (getCalibType filename)) = false ->
  PyStr.contains "illumcor" (PyStr.lower (getCalibType filename)) = false ->
  snd (getDestination getCalibType butler info filename)
  = Raise (AssertionError (invalid_calibType (getCalibType filename)))
  /\ forall dest, snd (getDestination getCalibType butler info filename) <> Ok dest.
Proof.
  intros F B _ I. unfold getDestination. cbn [snd].
  rewrite F, bias_or_zero, B, I. split; [reflexivity | discriminate].
Qed.

Lemma getDestination_unknown_kind_asserts_witness :
  snd (getDestination (fun _ => "bar") archive ∅ "bar.fits")
  = Raise (AssertionError "Invalid calibType 'bar'")
  /\ forall dest, snd (getDestination (fun _ => "bar") archive ∅ "bar.fits") <> Ok dest.
Proof.
  apply (getDestination_unknown_kind_asserts (fun _ => "bar") archive ∅ "bar.fits");
    reflexivity.
Defined.


(** * Further properties *)

(** ** [getInfo], record by record *)

Section GetInfoMore.

Variable base : string -> dict * list dict.
Variable filename : string.

Lemma getInfo_processed :
  getInfo base filename =
    (match snd (base filename) with
     | [] => processed filename (fst (base filename))
     | _ => fst (base filename)
     end,
     map (processed filename) (extension_records (base filename))).
Proof.
  unfold getInfo, extension_records, processed.
  destruct (base filename) as [phu l]. simpl.
  destruct (Re.search_date filename);
    destruct l; simpl; rewrite ?map_map; reflexivity.
Qed.

Lemma processed_other (r : dict) (k : string) :
  k <> "path" -> k <> "calib_hdu" -> k <> "calibDate" ->
  processed filename r !! k = r !! k.
Proof.
  intros N1 N2 N3. unfold processed.
  destruct (Re.search_date filename);
    rewrite ?set_calibDate_other by assumption; now apply stamped_other.
Qed.

Lemma processed_path (r : dict) :
  processed filename r !! "path" = Some (VStr filename).
Proof.
  unfold processed.
  destruct (Re.search_date filename);
    rewrite ?set_calibDate_other by discriminate; apply stamped_path.
Qed.

Lemma processed_calib_hdu (r : dict) :
  processed filename r !! "calib_hdu" = Some (default (VInt 1) (r !! "hdu")).
Proof.
  unfold processed.
  destruct (Re.search_date filename);
    rewrite ?set_calibDate_other by discriminate; apply stamped_calib_hdu.
Qed.

Lemma is_date_not_unknown (d : string) : is_date d -> d <> "unknown".
Proof. intros F ->. unfold is_date in F. simpl in F. repeat (inversion F as [|? ? ? ? _ F']; subst; clear F; rename F' into F). Qed.

Lemma set_calibDate_idem (date : string) (info : dict) :
  date <> "unknown" ->
  set_calibDate date (set_calibDate date info) = set_calibDate date info.
Proof.
  intros N. apply String.eqb_neq in N.
  assert (K : set_calibDate date (<["calibDate" := VStr date]> info)
              = <["calibDate" := VStr date]> info).
  { unfold set_calibDate. rewrite lookup_insert_eq. simpl. now rewrite N. }
  unfold set_calibDate at 2 3.
  destruct (info !! "calibDate") as [v|] eqn:E; [|exact K].
  destruct (eq_str v "unknown") eqn:U; [exact K|].
  unfold set_calibDate. now rewrite E, U.
Qed.

Lemma stamped_fixed (r : dict) :
  r !! "path" = Some (VStr filename) ->
  r !! "calib_hdu" = Some (default (VInt 1) (r !! "hdu")) ->
  stamped filename r = r.
Proof.
  intros P H. unfold stamped. rewrite (insert_id _ _ _ P).
  unfold set_calib_hdu. destruct (r !! "hdu") as [h|]; now apply insert_id.
Qed.

Lemma processed_idem (r : dict) :
  processed filename (processed filename r) = processed filename r.
Proof.
  assert (S : stamped filename (processed filename r) = processed filename r).
  { apply stamped_fixed; [apply processed_path|].
    rewrite processed_calib_hdu. f_equal. f_equal. symmetry.
    now apply processed_other. }
  unfold processed at 1. rewrite S.
  destruct (Re.search_date filename) as [d|] eqn:D; [|reflexivity].
  unfold processed. rewrite D. apply set_calibDate_idem.
  apply search_date_Some in D as (pre & suf & _ & F & _).
  now apply is_date_not_unknown.
Qed.

End GetInfoMore.

(** X1. Every record that [getInfo] returns has [calib_hdu]: the [hdu] of
    the record it comes from, or 1 when that record has no [hdu]; [hdu]
    itself is left as it was. *)
Theorem getInfo_calib_hdu (base : string -> dict * list dict)
    (filename : string) (i : nat) (rec : dict) :
  extension_records (base filename) !! i = Some rec ->
  exists rec',
    snd (getInfo base filename) !! i = Some rec'
    /\ rec' !! "calib_hdu" = Some (default (VInt 1) (rec !! "hdu"))
    /\ rec' !! "hdu" = rec !! "hdu".
Proof.
  intros H. rewrite getInfo_processed. cbn [snd].
  rewrite lookup_map, H. simpl. eexists. split; [reflexivity|].
  split; [apply processed_calib_hdu | now apply processed_other].
Qed.

Lemma getInfo_calib_hdu_witness :
  exists rec',
    snd (getInfo primary_only "zero.fits") !! 0%nat = Some rec'
    /\ rec' !! "calib_hdu"
       = Some (default (VInt 1) (fst (primary_only "zero.fits") !! "hdu"))
    /\ rec' !! "hdu" = fst (primary_only "zero.fits") !! "hdu".
Proof.
  apply (getInfo_calib_hdu primary_only "zero.fits" 0%nat). reflexivity.
Defined.

(** X2. [getInfo] returns as many records as it was given, in the same
    order, and touches three keys only: apart from [path], [calib_hdu] and
    [calibDate], a returned record has exactly the keys and values of the
    record it comes from. *)
Theorem getInfo_other_fields (base : string -> dict * list dict)
    (filename : string) :
  length (snd (getInfo base filename))
  = length (extension_records (base filename))
  /\ forall (i : nat) (rec rec' : dict) (k : string),
       extension_records (base filename) !! i = Some rec ->
       snd (getInfo base filename) !! i = Some rec' ->
       k <> "path" -> k <> "calib_hdu" -> k <> "calibDate" ->
       rec' !! k = rec !! k.
Proof.
  rewrite getInfo_processed. cbn [snd]. split; [apply length_map|].
  intros i rec rec' k H H'. rewrite lookup_map, H in H'. simpl in H'.
  injection H' as <-. apply processed_other.
Qed.

Lemma getInfo_other_fields_witness :
  exists rec',
    snd (getInfo two_extensions "cpFlat_2019-01-01_g.fits") !! 1%nat = Some rec'
    /\ rec' !! "hdu" = Some (VInt 2) /\ rec' !! "filter" = None.
Proof.
  eexists. split; [reflexivity|]. split.
  - transitivity (({[ "hdu" := VInt 2; "calibDate" := VStr "2018-12-31" ]} : dict)
                    !! "hdu"); [|reflexivity].
    refine (proj2 (getInfo_other_fields two_extensions "cpFlat_2019-01-01_g.fits")
                  1%nat _ _ "hdu" _ _ _ _ _);
      [reflexivity | reflexivity | discriminate | discriminate | discriminate].
  - transitivity (({[ "hdu" := VInt 2; "calibDate" := VStr "2018-12-31" ]} : dict)
                    !! "filter"); [|reflexivity].
    refine (proj2 (getInfo_other_fields two_extensions "cpFlat_2019-01-01_g.fits")
                  1%nat _ _ "filter" _ _ _ _ _);
      [reflexivity | reflexivity | discriminate | discriminate | discriminate].
Defined.



(** X4. When the file name has no substring of the shape [DDDD-DD-DD],
    [getInfo] leaves [calibDate] alone in every record: absent stays
    absent and ["unknown"] stays ["unknown"]. *)
Theorem getInfo_without_filename_date (base : string -> dict * list dict)
    (filename : string) (i : nat) (rec : dict) :
  ~ has_date filename ->
  extension_records (base filename) !! i = Some rec ->
  exists rec',
    snd (getInfo base filename) !! i = Some rec'
    /\ rec' !! "calibDate" = rec !! "calibDate".
Proof.
  intros N H. rewrite getInfo_processed. cbn [snd].
  rewrite lookup_map, H. simpl. eexists. split; [reflexivity|].
  unfold processed. destruct (Re.search_date filename) as [d|] eqn:D.
  - destruct N. apply search_date_Some in D as (pre & suf & E & F & _).
    now exists pre, d, suf.
  - now apply stamped_other.
Qed.

Lemma getInfo_without_filename_date_witness :
  exists rec',
    snd (getInfo two_extensions "flat.fits") !! 0%nat = Some rec'
    /\ rec' !! "calibDate"
       = ({[ "hdu" := VInt 1; "calibDate" := VStr "unknown" ]} : dict) !! "calibDate".
Proof.
  refine (getInfo_without_filename_date two_extensions "flat.fits" 0%nat
            {[ "hdu" := VInt 1; "calibDate" := VStr "unknown" ]} _ _);
    [|reflexivity].
  apply search_date_None. reflexivity.
Defined.

(** X5. Running [getInfo] on what [getInfo] returned changes nothing:
    with [getInfo base] in the place of the base class, the primary
    record and the list of records are the same. *)
Theorem getInfo_idempotent (base : string -> dict * list dict)
    (filename : string) :
  getInfo (getInfo base) filename = getInfo base filename.
Proof.
  rewrite (getInfo_processed (getInfo base)).
  rewrite (getInfo_processed base). cbn [fst snd].
  unfold extension_records. cbn [fst snd].
  destruct (snd (base filename)) as [|r l]; simpl.
  - now rewrite processed_idem.
  - rewrite processed_idem, map_map. f_equal. f_equal.
    apply map_ext. intros a. apply processed_idem.
Qed.

(** ** Trimming and searching *)

Section Strip.
Import PyStr.

Lemma isspace_lower_char (c : ascii) : isspace (lower_char c) = isspace c.
Proof. destruct c as [[] [] [] [] [] [] [] []]; reflexivity. Qed.

Lemma lower_lstrip (s : string) : lower (lstrip s) = lstrip (lower s).
Proof.
  induction s as [|c s IH]; [reflexivity|]. simpl.
  rewrite isspace_lower_char. now destruct (isspace c).
Qed.

Lemma lower_rstrip (s : string) : lower (rstrip s) = rstrip (lower s).
Proof.
  induction s as [|c s IH]; [reflexivity|]. simpl.
  rewrite <- IH, isspace_lower_char.
  destruct (rstrip s); [now destruct (isspace c) | reflexivity].
Qed.

Lemma prefix_nil (s : string) : String.prefix "" s = true.
Proof. now destruct s. Qed.

Lemma prefix_cons (x c : ascii) (p t : string) :
  String.prefix (String x p) (String c t)
  = if ascii_dec x c then String.prefix p t else false.
Proof. reflexivity. Qed.

Lemma rstrip_cons (c : ascii) (t : string) :
  (rstrip (String c t) = "" /\ rstrip t = "" /\ isspace c = true)
  \/ rstrip (String c t) = String c (rstrip t).
Proof.
  simpl. destruct (rstrip t); [|now right].
  destruct (isspace c); [now left | now right].
Qed.

Lemma prefix_rstrip (p t : string) :
  nospace p = true -> String.prefix p (rstrip t) = String.prefix p t.
Proof.
  revert p; induction t as [|c t IH]; intros p N; [reflexivity|].
  destruct p as [|x p]; [now rewrite !prefix_nil|].
  simpl in N. apply andb_prop in N as [Nx N]. apply negb_true_iff in Nx.
  rewrite prefix_cons.
  destruct (rstrip_cons c t) as [(-> & R & S) | ->].
  - destruct (ascii_dec x c) as [->|]; [congruence | reflexivity].
  - rewrite prefix_cons. now rewrite (IH _ N).
Qed.

Lemma contains_nil (p : string) : p <> "" -> contains p "" = false.
Proof. destruct p; [now intros [] | reflexivity]. Qed.

Lemma contains_rstrip (p t : string) :
  nospace p = true -> p <> "" -> contains p (rstrip t) = contains p t.
Proof.
  intros N Ne. induction t as [|c t IH]; [reflexivity|].
  cbn [contains]. rewrite <- (prefix_rstrip p (String c t) N), <- IH.
  destruct (rstrip_cons c t) as [(-> & -> & _) | ->].
  - destruct p; [now destruct Ne | reflexivity].
  - reflexivity.
Qed.

Lemma contains_lstrip (p t : string) :
  nospace p = true -> p <> "" -> contains p (lstrip t) = contains p t.
Proof.
  intros N Ne. induction t as [|c t IH]; [reflexivity|].
  cbn [lstrip]. destruct (isspace c) eqn:S; [|reflexivity].
  rewrite IH. cbn [contains].
  destruct p as [|x p]; [now destruct Ne|].
  simpl in N. apply andb_prop in N as [Nx _]. apply negb_true_iff in Nx.
  rewrite prefix_cons. destruct (ascii_dec x c) as [->|]; [congruence | reflexivity].
Qed.

(** Trimming never changes whether a whitespace-free word occurs. *)
Lemma contains_strip (p t : string) :
  nospace p = true -> p <> "" -> contains p (strip t) = contains p t.
Proof.
  intros N Ne. unfold strip.
  now rewrite contains_rstrip, contains_lstrip.
Qed.

Lemma lower_strip (s : string) : lower (strip s) = strip (lower s).
Proof. unfold strip. now rewrite lower_rstrip, lower_lstrip. Qed.

End Strip.

(** ** The translators at their edges *)

Lemma translateFromCalibId_missing (field : string) (md : dict) (s : string) :
  md !! "CALIB_ID" = Some (VStr s) ->
  (forall pre v, ~ Token field s pre v) ->
  _translateFromCalibId field md = Raise AttributeError.
Proof.
  intros H No. rewrite (translateFromCalibId_str _ _ _ H).
  destruct (Re.search_calib field s) as [w|] eqn:S; [|reflexivity].
  apply search_calib_Some in S as (p & T). destruct (No _ _ T).
Qed.



(** X7. [translate_ccdnum] has no sentinel: with neither CCDNUM nor
    CALIB_ID in the header the lookup of CALIB_ID fails and the error
    reaches the caller. *)
Theorem translate_ccdnum_neither (md : dict) :
  md !! "CCDNUM" = None -> md !! "CALIB_ID" = None ->
  translate_ccdnum md = Raise (NotFoundError "CALIB_ID").
Proof.
  intros H1 H2. rewrite (translate_ccdnum_fallback _ H1).
  now apply translateFromCalibId_absent.
Qed.

Lemma translate_ccdnum_neither_witness :
  translate_ccdnum {[ "FILTER" := VStr "g" ]} = Raise (NotFoundError "CALIB_ID").
Proof.
  apply (translate_ccdnum_neither {[ "FILTER" := VStr "g" ]}); reflexivity.
Defined.

(** X8. With a CCDNUM card in the header [translate_ccdnum] always
    returns a value, and CALIB_ID plays no part in it. *)
Theorem translate_ccdnum_present (md : dict) (v c : value) :
  md !! "CCDNUM" = Some v ->
  (exists x, translate_ccdnum md = Ok x)
  /\ translate_ccdnum (<["CALIB_ID" := c]> md) = translate_ccdnum md.
Proof.
  intros H.
  assert (H' : <["CALIB_ID" := c]> md !! "CCDNUM" = Some v)
    by now rewrite lookup_insert_ne.
  unfold translate_ccdnum.
  destruct (md_present _ _ _ H) as [-> ->].
  destruct (md_present _ _ _ H') as [-> ->]. simpl.
  split; [|reflexivity].
  destruct v as [| |[|a s]|[|x l]]; simpl; eauto.
Qed.

Lemma translate_ccdnum_present_witness :
  (exists x, translate_ccdnum {[ "CCDNUM" := VList [] ]} = Ok x)
  /\ translate_ccdnum (<["CALIB_ID" := VStr calib_id_example]>
                         {[ "CCDNUM" := VList [] ]})
     = translate_ccdnum {[ "CCDNUM" := VList [] ]}.
Proof.
  apply (translate_ccdnum_present {[ "CCDNUM" := VList [] ]} (VList [])).
  reflexivity.
Defined.

(** X9. A string is a sequence too: when CCDNUM holds text,
    [translate_ccdnum] returns its first character only, and [None] for
    the empty text. *)
Theorem translate_ccdnum_text (md : dict) (s : string) :
  md !! "CCDNUM" = Some (VStr s) ->
  translate_ccdnum md =
    match s with
    | String c _ => Ok (VStr (String c ""))
    | EmptyString => Ok VNone
    end.
Proof.
  intros H. unfold translate_ccdnum.
  destruct (md_present _ _ _ H) as [-> ->]. now destruct s.
Qed.

Lemma translate_ccdnum_text_witness :
  translate_ccdnum {[ "CCDNUM" := VStr "12" ]} = Ok (VStr "1").
Proof.
  apply (translate_ccdnum_text {[ "CCDNUM" := VStr "12" ]} "12"). reflexivity.
Defined.

(** X10. [translate_date] logs a warning exactly when DATE-OBS is a
    string without a substring of the shape [DDDD-DD-DD]; the log then
    holds that one warning and nothing else. *)
Theorem translate_date_warns_iff (md : dict) :
  (snd (translate_date md) <> []
   <-> exists s, md !! "DATE-OBS" = Some (VStr s) /\ ~ has_date s)
  /\ (snd (translate_date md) = [] \/ snd (translate_date md) = [warning_date_format]).
Proof.
  unfold translate_date, Md.exists_, Md.getScalar.
  destruct (md !! "DATE-OBS") as [[| |s|]|] eqn:E; simpl;
    try (split; [split; [now intros [] | intros (s' & [=] & _)] | now left]).
  - destruct (Re.search_date s) as [d|] eqn:S; simpl.
    + split; [|now left]. split; [now intros []|].
      intros (s' & [= <-] & N). destruct N.
      apply search_date_Some in S as (pre & suf & ? & ? & _). now exists pre, d, suf.
    + split; [|now right]. split; [|discriminate].
      intros _. exists s. split; [reflexivity | now apply search_date_None].
  - destruct (md !! "CALIB_ID"); simpl;
      (split; [split; [now intros [] | intros (s' & [=] & _)] | now left]).
Qed.

(** X11. A string in DATE-OBS settles the date: [translate_date] does
    not raise, returns ["unknown"] or a string of the shape [DDDD-DD-DD],
    and gives the same result and log whatever CALIB_ID holds. *)
Theorem translate_date_direct (md : dict) (s : string) (c : value) :
  md !! "DATE-OBS" = Some (VStr s) ->
  (exists d, fst (translate_date md) = Ok (VStr d) /\ (d = "unknown" \/ is_date d))
  /\ translate_date (<["CALIB_ID" := c]> md) = translate_date md.
Proof.
  intros H.
  assert (H' : <["CALIB_ID" := c]> md !! "DATE-OBS" = Some (VStr s))
    by now rewrite lookup_insert_ne.
  unfold translate_date.
  destruct (md_present _ _ _ H) as [-> ->].
  destruct (md_present _ _ _ H') as [-> ->].
  split; [|reflexivity].
  destruct (Re.search_date s) as [d|] eqn:S; simpl.
  - exists d. split; [reflexivity|]. right.
    now apply search_date_Some in S as (pre & suf & _ & F & _).
  - exists "unknown". split; [reflexivity | now left].
Qed.

Lemma translate_date_direct_witness :
  (exists d, fst (translate_date {[ "DATE-OBS" := VStr "2020-05-13T00:00:00" ]})
             = Ok (VStr d) /\ (d = "unknown" \/ is_date d))
  /\ translate_date (<["CALIB_ID" := VStr calib_id_example]>
                       {[ "DATE-OBS" := VStr "2020-05-13T00:00:00" ]})
     = translate_date {[ "DATE-OBS" := VStr "2020-05-13T00:00:00" ]}.
Proof.
  apply (translate_date_direct {[ "DATE-OBS" := VStr "2020-05-13T00:00:00" ]}
                               "2020-05-13T00:00:00").
  reflexivity.
Defined.

(** X12. The sentinel is for a missing CALIB_ID only. When the direct
    card is absent and CALIB_ID is a string that lacks the token, each of
    the three translators ends in the [AttributeError] of
    [_translateFromCalibId]; [translate_date] logs nothing then. *)
Theorem translators_missing_token (base : dict -> result value) (md : dict)
    (s : string) :
  md !! "CALIB_ID" = Some (VStr s) ->
  (md !! "CCDNUM" = None -> (forall pre v, ~ Token "ccdnum" s pre v) ->
   translate_ccdnum md = Raise AttributeError)
  /\ (md !! "DATE-OBS" = None -> (forall pre v, ~ Token "calibDate" s pre v) ->
      translate_date md = (Raise AttributeError, []))
  /\ (md !! "FILTER" = None -> (forall pre v, ~ Token "filter" s pre v) ->
      translate_filter base md = Raise AttributeError).
Proof.
  intros H. repeat split; intros A No.
  - rewrite (translate_ccdnum_fallback _ A).
    now apply (translateFromCalibId_missing _ _ s).
  - unfold translate_date.
    rewrite (proj1 (md_absent _ _ A)), (proj1 (md_present _ _ _ H)).
    now rewrite (translateFromCalibId_missing _ _ s).
  - unfold translate_filter.
    rewrite (proj1 (md_absent _ _ A)), (proj1 (md_present _ _ _ H)).
    now apply (translateFromCalibId_missing _ _ s).
Qed.

Lemma translators_missing_token_witness :
  translate_ccdnum {[ "CALIB_ID" := VStr "filter=g" ]} = Raise AttributeError
  /\ translate_date {[ "CALIB_ID" := VStr "filter=g" ]} = (Raise AttributeError, [])
  /\ translate_filter filter_name_of {[ "CALIB_ID" := VStr "ccdnum=12" ]}
     = Raise AttributeError.
Proof.
  split; [|split].
  - refine (proj1 (translators_missing_token filter_name_of _ "filter=g" _) _ _);
      [reflexivity | reflexivity | apply search_calib_None; reflexivity].
  - refine (proj1 (proj2 (translators_missing_token filter_name_of _ "filter=g" _)) _ _);
      [reflexivity | reflexivity | apply search_calib_None; reflexivity].
  - refine (proj2 (proj2 (translators_missing_token filter_name_of _ "ccdnum=12" _)) _ _);
      [reflexivity | reflexivity | apply search_calib_None; reflexivity].
Defined.

(** X13. Cards of the wrong type are not recovered. A DATE-OBS that is
    not a string ends [translate_date] in [TypeError], with no warning and
    no recourse to CALIB_ID; with FILTER present, an OBSTYPE that is not a
    string ends [translate_filter] in [AttributeError] before the base
    translator is asked. *)
Theorem translators_ill_typed (base : dict -> result value) (md : dict)
    (v : value) :
  (forall s, v <> VStr s) ->
  (md !! "DATE-OBS" = Some v -> translate_date md = (Raise TypeError, []))
  /\ (is_Some (md !! "FILTER") -> md !! "OBSTYPE" = Some v ->
      translate_filter base md = Raise AttributeError).
Proof.
  intros N. split.
  - intros H. unfold translate_date. destruct (md_present _ _ _ H) as [-> ->].
    destruct v as [| |s|]; trivial. now destruct (N s).
  - intros [f F] H. unfold translate_filter.
    rewrite (proj1 (md_present _ _ _ F)). destruct (md_present _ _ _ H) as [-> ->].
    destruct v as [| |s|]; trivial. now destruct (N s).
Qed.

Lemma translators_ill_typed_witness :
  translate_date {[ "DATE-OBS" := VInt 20200513; "CALIB_ID" := VStr calib_id_example ]}
  = (Raise TypeError, [])
  /\ translate_filter filter_name_of {[ "FILTER" := VStr "g"; "OBSTYPE" := VNone ]}
     = Raise AttributeError.
Proof.
  split.
  - refine (proj1 (translators_ill_typed filter_name_of _ (VInt 20200513) _) _);
      [discriminate | reflexivity].
  - refine (proj2 (translators_ill_typed filter_name_of _ VNone _) _ _);
      [discriminate | now eexists | reflexivity].
Defined.

(** X14. The trim in [translate_filter] decides nothing. With FILTER
    present and OBSTYPE a string, the answer is ["NONE"] exactly when the
    lower-cased OBSTYPE, trimmed or not, contains ["zero"]; otherwise it
    is the base translator's. *)
Theorem translate_filter_zero_untrimmed (base : dict -> result value)
    (md : dict) (o : string) :
  is_Some (md !! "FILTER") -> md !! "OBSTYPE" = Some (VStr o) ->
  translate_filter base md =
    if PyStr.contains "zero" (PyStr.lower o) then Ok (VStr "NONE") else base md.
Proof.
  intros [f F] H. unfold translate_filter.
  rewrite (proj1 (md_present _ _ _ F)). destruct (md_present _ _ _ H) as [-> ->].
  simpl. rewrite lower_strip, contains_strip by (reflexivity || discriminate).
  reflexivity.
Qed.

Lemma translate_filter_zero_untrimmed_witness :
  translate_filter filter_name_of {[ "FILTER" := VStr "g"; "OBSTYPE" := VStr "  Zero " ]}
  = Ok (VStr "NONE").
Proof.
  refine (translate_filter_zero_untrimmed filter_name_of _ "  Zero " _ _);
    [now eexists | reflexivity].
Defined.


(** ** [getDestination]: dispatch, side effect and result *)

Section Destination.
Import PyStr.

Lemma bracket_cases (raw : string) :
  no_bracket raw
  \/ exists pre suf, raw = pre ++ "[" ++ suf /\ no_bracket pre.
Proof.
  induction raw as [|c s IH].
  - left. intros a b E. destruct a; discriminate.
  - destruct (ascii_dec c "[") as [->|N].
    + right. exists "", s. split; [reflexivity|].
      intros a b E. destruct a; discriminate.
    + destruct IH as [Nb | (pre & suf & -> & Nb)].
      * left. intros a b E. destruct a as [|x a]; simpl in E.
        -- injection E as -> _. now destruct N.
        -- injection E as _ ->. now apply (Nb a b).
      * right. exists (String c pre), suf. split; [reflexivity|].
        intros a b E. destruct a as [|x a]; simpl in E.
        -- injection E as -> _. now destruct N.
        -- injection E as _ ->. now apply (Nb a b).
Qed.

(** The last three lines of [getDestination] give a prefix of the path,
    empty only for the empty path, on which they have no further effect. *)
Lemma strip_hdu_props (raw : string) :
  let cut := fun r => if 0 <? find "[" r then slice_to (find "[" r) r else r in
  is_prefix (cut raw) raw
  /\ (raw <> "" -> cut raw <> "")
  /\ cut (cut raw) = cut raw.
Proof.
  intros cut.
  destruct (strip_hdu_spec raw) as (S1 & S2 & S3). fold (cut raw) in S1, S2, S3.
  destruct (bracket_cases raw) as [Nb | (pre & suf & E & Nb)].
  - rewrite (S1 Nb). repeat split; trivial.
    + exists "". now rewrite sapp_nil_r.
    + exact (S1 Nb).
  - destruct pre as [|c pre].
    + simpl in E. rewrite (S2 _ E). repeat split; trivial.
      * exists "". now rewrite sapp_nil_r.
      * exact (S2 _ E).
    + assert (P : cut raw = String c pre) by (apply (S3 _ _ E Nb); discriminate).
      rewrite P. repeat split.
      * now exists ("[" ++ suf).
      * discriminate.
      * exact (proj1 (strip_hdu_spec (String c pre)) Nb).
Qed.

Variable getCalibType : string -> string.
Variable butler : string -> dict -> list string.
Variable info : dict.
Variable filename : string.

Lemma getDestination_info :
  fst (getDestination getCalibType butler info filename) = forced info.
Proof. reflexivity. Qed.

Lemma getDestination_asks (t : string) :
  asks (getCalibType filename) t ->
  snd (getDestination getCalibType butler info filename) =
    (try! raw := first_candidate (butler t (forced info)) in
     if 0 <? find "[" raw then Ok (slice_to (find "[" raw) raw) else Ok raw).
Proof.
  unfold getDestination, forced. cbn [snd]. rewrite bias_or_zero.
  intros [F | F B | F B I]; rewrite F; try rewrite B; try rewrite I; reflexivity.
Qed.

Lemma getDestination_not_asked :
  (forall t, ~ asks (getCalibType filename) t) ->
  snd (getDestination getCalibType butler info filename)
  = Raise (AssertionError (invalid_calibType (getCalibType filename))).
Proof.
  intros No. unfold getDestination. cbn [snd]. rewrite bias_or_zero.
  destruct (contains "flat" _) eqn:F; [destruct (No _ (asks_flat _ F))|].
  destruct (contains "bias" _) eqn:B; [destruct (No _ (asks_bias _ F B))|].
  destruct (contains "illumcor" _) eqn:I; [destruct (No _ (asks_illumcor _ F B I))|].
  reflexivity.
Qed.

Lemma asks_dec :
  (exists t, asks (getCalibType filename) t)
  \/ (forall t, ~ asks (getCalibType filename) t).
Proof.
  destruct (contains "flat" (lower (getCalibType filename))) eqn:F;
    [left; eexists; now apply asks_flat|].
  destruct (contains "bias" (lower (getCalibType filename))) eqn:B;
    [left; eexists; now apply asks_bias|].
  destruct (contains "illumcor" (lower (getCalibType filename))) eqn:I;
    [left; eexists; now apply asks_illumcor|].
  right. intros t A. destruct A; congruence.
Qed.

End Destination.

(** X15. [getDestination] writes into the record it is given, before
    anything can fail: whether it returns or raises, the record ends with
    [ccdnum] and [calib_hdu] equal to 1 and every other key as it was. *)
Theorem getDestination_forces_info (getCalibType : string -> string)
    (butler : string -> dict -> list string) (info : dict) (filename : string) :
  fst (getDestination getCalibType butler info filename) = forced info
  /\ forced info !! "ccdnum" = Some (VInt 1)
  /\ forced info !! "calib_hdu" = Some (VInt 1)
  /\ forall k, k <> "ccdnum" -> k <> "calib_hdu" -> forced info !! k = info !! k.
Proof.
  split; [reflexivity|]. unfold forced. repeat split.
  - rewrite lookup_insert_ne by discriminate. apply lookup_insert_eq.
  - apply lookup_insert_eq.
  - intros k N1 N2. now rewrite !lookup_insert_ne by congruence.
Qed.

Lemma forced_overwrites (info : dict) (v w : value) :
  forced (<["ccdnum" := v]> (<["calib_hdu" := w]> info)) = forced info.
Proof.
  unfold forced. apply map_eq. intros k.
  destruct (decide (k = "calib_hdu")) as [->|N1];
    [now rewrite !lookup_insert_eq|].
  rewrite !(lookup_insert_ne _ "calib_hdu") by congruence.
  destruct (decide (k = "ccdnum")) as [->|N2];
    [now rewrite !lookup_insert_eq|].
  rewrite !(lookup_insert_ne _ "ccdnum") by congruence.
  now rewrite lookup_insert_ne by congruence.
Qed.

Lemma forced_idem (info : dict) : forced (forced info) = forced info.
Proof.
  unfold forced. apply map_eq. intros k.
  destruct (decide (k = "calib_hdu")) as [->|N1];
    [now rewrite !lookup_insert_eq|].
  rewrite !(lookup_insert_ne _ "calib_hdu") by congruence.
  destruct (decide (k = "ccdnum")) as [->|N2];
    [now rewrite !lookup_insert_eq|].
  rewrite !(lookup_insert_ne _ "ccdnum") by congruence.
  now rewrite !lookup_insert_ne by congruence.
Qed.

Lemma getDestination_by_forced (getCalibType : string -> string)
    (butler : string -> dict -> list string) (info info' : dict)
    (filename : string) :
  forced info = forced info' ->
  getDestination getCalibType butler info filename
  = getDestination getCalibType butler info' filename.
Proof.
  intros E. unfold getDestination. fold (forced info) (forced info').
  now rewrite E.
Qed.

(** X16. The detector number and the extension of the record do not
    count: whatever [ccdnum] and [calib_hdu] hold on entry,
    [getDestination] gives the same outcome and leaves the same record. *)
Theorem getDestination_ignores_ccdnum (getCalibType : string -> string)
    (butler : string -> dict -> list string) (info : dict) (filename : string)
    (v w : value) :
  getDestination getCalibType butler
                 (<["ccdnum" := v]> (<["calib_hdu" := w]> info)) filename
  = getDestination getCalibType butler info filename.
Proof. apply getDestination_by_forced, forced_overwrites. Qed.

(** X17. Calling [getDestination] again on the record that a first call
    has written into gives the same outcome and changes the record no
    further. *)
Theorem getDestination_twice (getCalibType : string -> string)
    (butler : string -> dict -> list string) (info : dict) (filename : string) :
  getDestination getCalibType butler
                 (fst (getDestination getCalibType butler info filename)) filename
  = getDestination getCalibType butler info filename.
Proof. apply getDestination_by_forced. cbn [fst getDestination]. apply forced_idem. Qed.

(** X18. For a kind with ["flat"] the flat template is asked, whatever
    else the kind contains; otherwise ["bias"] selects the bias template;
    otherwise ["illumcor"] the illumination-correction template. When the
    template asked has a first candidate, [getDestination] returns a
    prefix of it, which is empty only if the candidate is. *)
Theorem getDestination_dispatch (getCalibType : string -> string)
    (butler : string -> dict -> list string) (info : dict) (filename : string)
    (t raw : string) (rest : list string) :
  asks (getCalibType filename) t ->
  butler t (forced info) = raw :: rest ->
  exists dest,
    snd (getDestination getCalibType butler info filename) = Ok dest
    /\ is_prefix dest raw
    /\ (raw <> "" -> dest <> "").
Proof.
  intros A B. rewrite (getDestination_asks _ _ _ _ _ A), B. simpl.
  destruct (strip_hdu_props raw) as (P & N & _). cbv beta in P, N.
  destruct (0 <? PyStr.find "[" raw); eexists; (split; [reflexivity|]); now split.
Qed.

Lemma getDestination_dispatch_witness :
  exists dest,
    snd (getDestination (fun _ => "flat bias illumcor") archive ∅ "x.fits") = Ok dest
    /\ is_prefix dest "/archive/cpFlat/file.fits[1]"
    /\ ("/archive/cpFlat/file.fits[1]" <> "" -> dest <> "").
Proof.
  refine (getDestination_dispatch (fun _ => "flat bias illumcor") archive ∅ "x.fits"
            "cpFlat_filename" _ [] _ _); [|reflexivity].
  apply asks_flat. reflexivity.
Defined.

(** X19. When the template asked has no candidate at all,
    [getDestination] ends in the [IndexError] of the subscript, not in
    the assertion. *)
Theorem getDestination_no_candidate (getCalibType : string -> string)
    (butler : string -> dict -> list string) (info : dict) (filename : string)
    (t : string) :
  asks (getCalibType filename) t ->
  butler t (forced info) = [] ->
  snd (getDestination getCalibType butler info filename) = Raise IndexError.
Proof.
  intros A B. now rewrite (getDestination_asks _ _ _ _ _ A), B.
Qed.

Lemma getDestination_no_candidate_witness :
  snd (getDestination (fun _ => "cpIllumcor") (fun _ _ => []) ∅ "x.fits")
  = Raise IndexError.
Proof.
  refine (getDestination_no_candidate (fun _ => "cpIllumcor") (fun _ _ => []) ∅
            "x.fits" "cpIllumcor_filename" _ _); [|reflexivity].
  apply asks_illumcor; reflexivity.
Defined.

(** X20. The assertion is raised exactly for the kinds whose lower-cased
    form contains none of ["flat"], ["bias"] and ["illumcor"]. *)
Theorem getDestination_asserts_iff (getCalibType : string -> string)
    (butler : string -> dict -> list string) (info : dict) (filename : string) :
  (exists msg, snd (getDestination getCalibType butler info filename)
               = Raise (AssertionError msg))
  <-> PyStr.contains "flat" (PyStr.lower (getCalibType filename)) = false
      /\ PyStr.contains "bias" (PyStr.lower (getCalibType filename)) = false
      /\ PyStr.contains "illumcor" (PyStr.lower (getCalibType filename)) = false.
Proof.
  split.
  - intros [msg H].
    destruct (asks_dec getCalibType filename) as [[t A] | No].
    + rewrite (getDestination_asks _ _ _ _ _ A) in H.
      destruct (butler t (forced info)) as [|raw rest]; [discriminate|].
      simpl in H. destruct (0 <? PyStr.find "[" raw); discriminate.
    + destruct (PyStr.contains "flat" _) eqn:F; [destruct (No _ (asks_flat _ F))|].
      destruct (PyStr.contains "bias" _) eqn:B; [destruct (No _ (asks_bias _ F B))|].
      destruct (PyStr.contains "illumcor" _) eqn:I;
        [destruct (No _ (asks_illumcor _ F B I)) | now repeat split].
  - intros (F & B & I). eexists. apply getDestination_not_asked.
    intros t A. destruct A; congruence.
Qed.

(** X21. A path that [getDestination] has returned needs no further
    cut: offered as the first candidate, it is returned as it is. *)
Theorem getDestination_resolved (getCalibType : string -> string)
    (butler : string -> dict -> list string) (info : dict) (filename dest : string) :
  snd (getDestination getCalibType butler info filename) = Ok dest ->
  snd (getDestination getCalibType (fun _ _ => [dest]) info filename) = Ok dest.
Proof.
  intros H. destruct (asks_dec getCalibType filename) as [[t A] | No].
  - rewrite (getDestination_asks _ butler _ _ _ A) in H.
    rewrite (getDestination_asks _ (fun _ _ => [dest]) _ _ _ A).
    destruct (butler t (forced info)) as [|raw rest]; [discriminate|].
    simpl in H |- *.
    destruct (strip_hdu_props raw) as (_ & _ & I). cbv beta in I.
    assert (D : (if 0 <? PyStr.find "[" raw
                 then PyStr.slice_to (PyStr.find "[" raw) raw else raw) = dest)
      by (destruct (0 <? PyStr.find "[" raw); now injection H).
    rewrite D in I.
    destruct (0 <? PyStr.find "[" dest) eqn:Z; [now rewrite I | reflexivity].
  - now rewrite (getDestination_not_asked _ _ _ _ No) in H.
Qed.

Lemma getDestination_resolved_witness :
  snd (getDestination (fun _ => "BIAS") (fun _ _ => ["/archive/cpBias/file.fits"])
                      ∅ "bias.fits")
  = Ok "/archive/cpBias/file.fits".
Proof.
  apply (getDestination_resolved (fun _ => "BIAS") archive ∅ "bias.fits").
  reflexivity.
Defined.

(** ** Across functions *)




(** X23. The order of the date sources. Take a record whose [calibDate]
    is what [translate_date] returned for a header with a string
    DATE-OBS. If DATE-OBS has a date, [getInfo] returns the record with
    that date, whatever the file name. If it has none, the record comes
    back with the leftmost date of the file name when there is one, and
    with ["unknown"] otherwise. *)
Theorem getInfo_after_translate_date (base : string -> dict * list dict)
    (filename : string) (i : nat) (rec md : dict) (s : string) (v : value) :
  extension_records (base filename) !! i = Some rec ->
  md !! "DATE-OBS" = Some (VStr s) ->
  fst (translate_date md) = Ok v ->
  rec !! "calibDate" = Some v ->
  exists rec',
    snd (getInfo base filename) !! i = Some rec'
    /\ (has_date s -> rec' !! "calibDate" = Some v /\ exists d, v = VStr d /\ first_date s d)
    /\ (~ has_date s -> has_date filename ->
        exists d, first_date filename d /\ rec' !! "calibDate" = Some (VStr d))
    /\ (~ has_date s -> ~ has_date filename ->
        rec' !! "calibDate" = Some (VStr "unknown")).
Proof.
  intros Hi Hd Ht Hc. rewrite getInfo_processed. cbn [snd].
  rewrite lookup_map, Hi. simpl. eexists. split; [reflexivity|].
  assert (S : stamped filename rec !! "calibDate" = Some v)
    by now rewrite stamped_other by discriminate.
  unfold translate_date in Ht. destruct (md_present _ _ _ Hd) as [E1 E2].
  rewrite E1, E2 in Ht. unfold processed.
  destruct (Re.search_date s) as [d|] eqn:D; simpl in Ht; injection Ht as <-.
  - pose proof (search_date_Some _ _ D) as F.
    assert (Hs : has_date s)
      by (destruct F as (pre & suf & ? & ? & _); now exists pre, d, suf).
    assert (N : VStr d <> VStr "unknown").
    { destruct F as (pre & suf & _ & F & _).
      intros [= U]. now apply (is_date_not_unknown d). }
    split; [|split]; [| intros X; now destruct X | intros X; now destruct X].
    intros _. split; [|now exists d].
    destruct (Re.search_date filename); [|exact S].
    now rewrite (set_calibDate_keeps _ _ _ S N).
  - pose proof (search_date_None _ D) as Ns.
    split; [intros X; now destruct (Ns X)|]. split.
    + intros _ Hf. destruct (search_date_has_date _ Hf) as (d & -> & F).
      exists d. split; [exact F|]. apply set_calibDate_fills. now right.
    + intros _ Nf. destruct (Re.search_date filename) as [d|] eqn:Df; [|exact S].
      destruct Nf. apply search_date_Some in Df as (pre & suf & ? & ? & _).
      now exists pre, d, suf.
Qed.

Lemma getInfo_after_translate_date_witness :
  exists rec',
    snd (getInfo two_extensions "cpFlat_2019-01-01_g.fits") !! 1%nat = Some rec'
    /\ (has_date "2018-12-31T10:00:00" ->
        rec' !! "calibDate" = Some (VStr "2018-12-31")
        /\ exists d, VStr "2018-12-31" = VStr d /\ first_date "2018-12-31T10:00:00" d)
    /\ (~ has_date "2018-12-31T10:00:00" -> has_date "cpFlat_2019-01-01_g.fits" ->
        exists d, first_date "cpFlat_2019-01-01_g.fits" d
                  /\ rec' !! "calibDate" = Some (VStr d))
    /\ (~ has_date "2018-12-31T10:00:00" -> ~ has_date "cpFlat_2019-01-01_g.fits" ->
        rec' !! "calibDate" = Some (VStr "unknown")).
Proof.
  refine (getInfo_after_translate_date two_extensions "cpFlat_2019-01-01_g.fits"
            1%nat {[ "hdu" := VInt 2; "calibDate" := VStr "2018-12-31" ]}
            {[ "DATE-OBS" := VStr "2018-12-31T10:00:00" ]}
            "2018-12-31T10:00:00" (VStr "2018-12-31") _ _ _ _); reflexivity.
Defined.
